(** * Employee-skill assistant: the SQL gateway, the connection provider
      and the schema bootstrap

    A shallow embedding of

    - [core/db_operations.py]: the module constants read from the
      environment, [get_connection] and [create_tables];
    - [core/adk_config.py] and [agent.py]: the two copies of the tool
      function [run_sql_query];
    - [create_user_table.py]: the older bootstrap script;
    - [core/adk_utils.py], [ui/streamlit_ui.py] and the rest of
      [core/adk_config.py]: one turn of the agent, the chat page, and the
      set-up of the runner and its session.

    Python values, dictionaries and exceptions are modelled as data; the
    driver (psycopg2 talking to PostgreSQL) is an oracle record, so that
    every statement below holds for every behaviour of the store.  Control
    flow ([try]/[except]/[finally], [with], local variables that may be
    unbound) is modelled in a small state-and-exception monad. *)

From Stdlib Require Import ZArith String List Bool Lia.
From Stdlib Require Import Floats.SpecFloat.
From stdpp Require Import gmap strings list pretty.

Local Open Scope Z_scope.
Local Open Scope string_scope.
Local Open Scope list_scope.

(** ** Python values that the driver hands back for one cell *)

(** [decimal.Decimal]: a sign, a coefficient and a power of ten, or one of
    the special values PostgreSQL's NUMERIC can hold. *)
Inductive Decimal : Type :=
| DecFinite (negative : bool) (coefficient : N) (exponent : Z)
| DecInfinity (negative : bool)
| DecNaN.

(** A Python [float] is an IEEE 754 binary64 number. *)
Definition binary64 : Type := spec_float.

Inductive PyValue : Type :=
| PyNone
| PyBool (b : bool)
| PyInt (n : Z)
| PyFloat (f : binary64)
| PyDecimal (d : Decimal)
| PyStr (s : string).


(** The builtin [float] applied to a [Decimal]: the binary64 number nearest
    to the decimal value (ties to even); values too large become an
    infinity, values too small a zero. *)
Definition float_of_Decimal (d : Decimal) : binary64 :=
  match d with
  | DecNaN => S754_nan
  | DecInfinity s => S754_infinity s
  | DecFinite s N0 _ => S754_zero s
  | DecFinite s (Npos c) e =>
      match e with
      | Zneg k =>
          SFdiv 53 1024 (S754_finite s c 0)
                (S754_finite false (Pos.pow 10 k) 0)
      | _ =>
          binary_normalize 53 1024
            ((if s then Zneg c else Zpos c) * 10 ^ e) 0 s
      end
  end.

(** ** Python dictionaries: insertion-ordered, one entry per key *)

Definition PyDict (V : Type) : Type := list (string * V).

(** [d[k] = v]: an existing key keeps its position and takes the new
    value, a new key goes last. *)
Fixpoint dict_set {V : Type} (k : string) (v : V) (d : PyDict V) : PyDict V :=
  match d with
  | [] => [(k, v)]
  | (k', v') :: d' =>
      if decide (k = k') then (k', v) :: d' else (k', v') :: dict_set k v d'
  end.

Fixpoint dict_get {V : Type} (k : string) (d : PyDict V) : option V :=
  match d with
  | [] => None
  | (k', v') :: d' => if decide (k = k') then Some v' else dict_get k d'
  end.

Definition dict_keys {V : Type} (d : PyDict V) : list string := d.*1.

(** A dict display or comprehension: the items are stored left to right. *)
Definition dict_of_items {V : Type} (items : list (string * V)) : PyDict V :=
  fold_left (fun d kv => dict_set kv.1 kv.2 d) items [].

(** ** The result envelope *)

Inductive EnvValue : Type :=
| EStr (s : string)
| ERows (rows : list (PyDict PyValue)).

Definition Envelope : Type := PyDict EnvValue.

Definition envelope_results (result : list (PyDict PyValue)) : Envelope :=
  dict_of_items [("status", EStr "success"); ("results", ERows result)].

Definition envelope_message (message : string) : Envelope :=
  dict_of_items [("status", EStr "success"); ("message", EStr message)].

Definition envelope_error (message : string) : Envelope :=
  dict_of_items [("status", EStr "error"); ("message", EStr message)].

(** ** Exceptions and outcomes *)

(** The exceptions that occur in these functions; both are subclasses of
    [Exception], so an [except Exception] clause catches them. *)
Inductive exn : Type :=
| DatabaseError (msg : string)       (* psycopg2.Error and its subclasses *)
| UnboundLocalError (var : string).  (* reading a local before assignment *)

(** [str(e)] *)
Definition str_exn (e : exn) : string :=
  match e with
  | DatabaseError msg => msg
  | UnboundLocalError var =>
      "local variable '" +:+ var +:+ "' referenced before assignment"
  end.

Inductive outcome (A : Type) : Type :=
| Returned (a : A)
| Raised (e : exn).
Arguments Returned {A} a.
Arguments Raised {A} e.

(** ** The driver and the store behind it *)

(** The keyword arguments of [psycopg2.connect]; [None] is what
    [os.getenv] gives for an unset variable. *)
Record ConnParams : Type := {
  host : option string;
  port : option string;
  dbname : option string;
  user : option string;
  password : option string
}.

(** One entry of [cursor.description]; [desc[0]] is the name. *)
Record Column : Type := {
  col_name : string;
  type_code : Z
}.

(** What a successful [cursor.execute] leaves behind: the cursor's
    [description] and [rowcount], what [fetchall] will do, and the
    contents of the store as the open transaction now sees them. *)
Record Executed (Store : Type) : Type := {
  description : option (list Column);
  rowcount : Z;
  fetch : exn + list (list PyValue);
  after : Store
}.
Arguments description {Store} _.
Arguments rowcount {Store} _.
Arguments fetch {Store} _.
Arguments after {Store} _.

(** The behaviour of psycopg2 and the server, for statements of type [Q]
    over store contents of type [Store].  Every operation named by the
    gateway's contract may fail. *)
Record Backend (Q Store : Type) : Type := {
  be_connect : ConnParams -> Store -> option exn;
  be_execute : Q -> Store -> exn + Executed Store;
  be_commit : Store -> option exn
}.
Arguments be_connect {Q Store} _ _ _.
Arguments be_execute {Q Store} _ _ _.
Arguments be_commit {Q Store} _ _.

(** What the program does to the outside world, in order. *)
Inductive event (Q : Type) : Type :=
| EvPrint (line : string)
| EvLogException (msg : string) (e : exn)
| EvConnect (params : ConnParams)
| EvCursor (conn : nat)
| EvExecute (conn : nat) (query : Q)
| EvFetchall (conn : nat)
| EvCommit (conn : nat)
| EvCursorClose (conn : nat)
| EvClose (conn : nat).
Arguments EvPrint {Q} line.
Arguments EvLogException {Q} msg e.
Arguments EvConnect {Q} params.
Arguments EvCursor {Q} conn.
Arguments EvExecute {Q} conn query.
Arguments EvFetchall {Q} conn.
Arguments EvCommit {Q} conn.
Arguments EvCursorClose {Q} conn.
Arguments EvClose {Q} conn.

(** A local variable of a Python function body. *)
Inductive local (A : Type) : Type :=
| Unbound
| BoundNone
| Bound (a : A).
Arguments Unbound {A}.
Arguments BoundNone {A}.
Arguments Bound {A} a.

(** The state threaded through a call: the durable contents of the store,
    the contents seen by the open transaction, the cursor's last result,
    the number of connections handed out so far, the trace, and the
    locals [conn] and [curr] of the running function. *)
Record state (Q Store : Type) : Type := {
  committed : Store;
  working : Store;
  cursor : option (Executed Store);
  opened : nat;
  trace : list (event Q);
  var_conn : local nat;
  var_curr : local nat
}.
Arguments committed {Q Store} _.
Arguments working {Q Store} _.
Arguments cursor {Q Store} _.
Arguments opened {Q Store} _.
Arguments trace {Q Store} _.
Arguments var_conn {Q Store} _.
Arguments var_curr {Q Store} _.

(** A process that has just started on a store with contents [db]. *)
Definition boot {Q Store : Type} (db : Store) : state Q Store :=
  {| committed := db; working := db; cursor := None; opened := 0%nat;
     trace := []; var_conn := Unbound; var_curr := Unbound |}.

(** ** A state-and-exception monad for Python function bodies *)

Section Effects.
Context {Q Store : Type}.
Variable be : Backend Q Store.

Definition M (A : Type) : Type :=
  state Q Store -> outcome A * state Q Store.

Definition ret {A : Type} (a : A) : M A := fun s => (Returned a, s).

Definition bind {A B : Type} (m : M A) (k : A -> M B) : M B :=
  fun s =>
    match m s with
    | (Returned a, s') => k a s'
    | (Raised e, s') => (Raised e, s')
    end.

Definition raise {A : Type} (e : exn) : M A := fun s => (Raised e, s).

(** [try: body except Exception as e: handler(e)] *)
Definition try_except {A : Type} (body : M A) (handler : exn -> M A) : M A :=
  fun s =>
    match body s with
    | (Returned a, s') => (Returned a, s')
    | (Raised e, s') => handler e s'
    end.

(** [try: body finally: cleanup].  The cleanup runs on every exit of the
    body; when it raises, its exception replaces the body's result. *)
Definition try_finally {A : Type} (body : M A) (cleanup : M unit) : M A :=
  fun s =>
    match body s with
    | (r, s') =>
        match cleanup s' with
        | (Returned _, s'') => (r, s'')
        | (Raised e, s'') => (Raised e, s'')
        end
    end.

(** A call runs the body in a frame of its own: the locals start
    unbound and the caller's locals come back afterwards. *)
Definition call {A : Type} (body : M A) : M A :=
  fun s =>
    match body {| committed := committed s; working := working s;
                  cursor := cursor s; opened := opened s;
                  trace := trace s;
                  var_conn := Unbound; var_curr := Unbound |} with
    | (r, s') =>
        (r, {| committed := committed s'; working := working s';
               cursor := cursor s'; opened := opened s';
               trace := trace s';
               var_conn := var_conn s; var_curr := var_curr s |})
    end.

Definition emit (ev : event Q) : M unit :=
  fun s =>
    (Returned tt,
     {| committed := committed s; working := working s;
        cursor := cursor s; opened := opened s;
        trace := trace s ++ [ev];
        var_conn := var_conn s; var_curr := var_curr s |}).

Definition print (line : string) : M unit := emit (EvPrint line).

(** [logging.exception(msg)] inside a handler for [e]. *)
Definition logging_exception (msg : string) (e : exn) : M unit :=
  emit (EvLogException msg e).

(** Assignment to, and reading of, the locals [conn] and [curr]. *)
Definition assign_conn (v : local nat) : M unit :=
  fun s =>
    (Returned tt,
     {| committed := committed s; working := working s;
        cursor := cursor s; opened := opened s; trace := trace s;
        var_conn := v; var_curr := var_curr s |}).

Definition assign_curr (v : local nat) : M unit :=
  fun s =>
    (Returned tt,
     {| committed := committed s; working := working s;
        cursor := cursor s; opened := opened s; trace := trace s;
        var_conn := var_conn s; var_curr := v |}).

(** Reading a local gives [None] or the object it is bound to, and
    raises [UnboundLocalError] when it was never assigned. *)
Definition read_local (name : string) (v : local nat) : M (option nat) :=
  match v with
  | Unbound => raise (UnboundLocalError name)
  | BoundNone => ret None
  | Bound c => ret (Some c)
  end.

Definition read_conn : M (option nat) :=
  fun s => read_local "conn" (var_conn s) s.

Definition read_curr : M (option nat) :=
  fun s => read_local "curr" (var_curr s) s.

(** *** The driver's operations *)

(** [psycopg2.connect(...)]: a new connection, whose transaction starts
    from the durable contents of the store. *)
Definition psycopg2_connect (params : ConnParams) : M nat :=
  fun s =>
    let tr := trace s ++ [EvConnect params] in
    match be_connect be params (committed s) with
    | Some e =>
        (Raised e,
         {| committed := committed s; working := working s;
            cursor := cursor s; opened := opened s; trace := tr;
            var_conn := var_conn s; var_curr := var_curr s |})
    | None =>
        (Returned (opened s),
         {| committed := committed s; working := committed s;
            cursor := None; opened := S (opened s); trace := tr;
            var_conn := var_conn s; var_curr := var_curr s |})
    end.

(** [conn.cursor()] *)
Definition conn_cursor (conn : nat) : M nat :=
  fun s =>
    (Returned conn,
     {| committed := committed s; working := working s;
        cursor := None; opened := opened s;
        trace := trace s ++ [EvCursor conn];
        var_conn := var_conn s; var_curr := var_curr s |}).

(** [cur.execute(query)] *)
Definition cur_execute (cur : nat) (query : Q) : M unit :=
  fun s =>
    let tr := trace s ++ [EvExecute cur query] in
    match be_execute be query (working s) with
    | inl e =>
        (Raised e,
         {| committed := committed s; working := working s;
            cursor := None; opened := opened s; trace := tr;
            var_conn := var_conn s; var_curr := var_curr s |})
    | inr r =>
        (Returned tt,
         {| committed := committed s; working := after r;
            cursor := Some r; opened := opened s; trace := tr;
            var_conn := var_conn s; var_curr := var_curr s |})
    end.

(** [cur.description] *)
Definition cur_description : M (option (list Column)) :=
  fun s =>
    (Returned match cursor s with
              | Some r => description r
              | None => None
              end, s).

(** [cur.rowcount] *)
Definition cur_rowcount : M Z :=
  fun s =>
    (Returned match cursor s with
              | Some r => rowcount r
              | None => (-1)%Z
              end, s).

(** [cur.fetchall()] *)
Definition cur_fetchall (cur : nat) : M (list (list PyValue)) :=
  fun s =>
    let s' := {| committed := committed s; working := working s;
                 cursor := cursor s; opened := opened s;
                 trace := trace s ++ [EvFetchall cur];
                 var_conn := var_conn s; var_curr := var_curr s |} in
    match cursor s with
    | Some r =>
        match fetch r with
        | inl e => (Raised e, s')
        | inr rows => (Returned rows, s')
        end
    | None => (Raised (DatabaseError "no results to fetch"), s')
    end.

(** [conn.commit()]: when it succeeds, what the transaction sees
    becomes durable. *)
Definition conn_commit (conn : nat) : M unit :=
  fun s =>
    let tr := trace s ++ [EvCommit conn] in
    match be_commit be (working s) with
    | Some e =>
        (Raised e,
         {| committed := committed s; working := working s;
            cursor := cursor s; opened := opened s; trace := tr;
            var_conn := var_conn s; var_curr := var_curr s |})
    | None =>
        (Returned tt,
         {| committed := working s; working := working s;
            cursor := cursor s; opened := opened s; trace := tr;
            var_conn := var_conn s; var_curr := var_curr s |})
    end.

(** [cur.close()] *)
Definition cur_close (cur : nat) : M unit := emit (EvCursorClose cur).

(** [conn.close()]: whatever was not committed is discarded.  Closing a
    psycopg2 connection or cursor does not raise. *)
Definition conn_close (conn : nat) : M unit :=
  fun s =>
    (Returned tt,
     {| committed := committed s; working := committed s;
        cursor := cursor s; opened := opened s;
        trace := trace s ++ [EvClose conn];
        var_conn := var_conn s; var_curr := var_curr s |}).

(** [with conn.cursor() as cur: body]: the cursor is closed on every
    exit of the body. *)
Definition with_cursor {A : Type} (conn : nat) (body : nat -> M A) : M A :=
  bind (conn_cursor conn) (fun cur => try_finally (body cur) (cur_close cur)).

End Effects.

Arguments M : clear implicits.

Declare Scope py_scope.
Delimit Scope py_scope with py.
Notation "x <- m ;; k" := (bind m (fun x => k))
  (at level 20, m at level 99, k at level 200, only parsing) : py_scope.
Notation "m ;; k" := (bind m (fun _ => k))
  (at level 100, k at level 200, right associativity, only parsing) : py_scope.
Local Open Scope py_scope.

(** ** The environment *)

(** [os.environ] and the contents of the [.env] file.  [load_dotenv()]
    adds the file's variables that the environment does not define. *)
Definition load_dotenv (dotenv environ : gmap string string)
  : gmap string string :=
  environ ∪ dotenv.

(** [os.getenv(name)]: [None] when the variable is not set. *)
Definition os_getenv (environ : gmap string string) (name : string)
  : option string :=
  environ !! name.

(** ** The SQL of the bootstrap, as syntax *)

Inductive SqlType : Type := SERIAL | INT | TEXT | NUMERIC.

Inductive OnDelete : Type := NO_ACTION | CASCADE.

Inductive ColumnConstraint : Type :=
| PRIMARY_KEY
| NOT_NULL
| UNIQUE
| REFERENCES (table column : string) (on_delete : OnDelete).

Record ColumnDef : Type := {
  cd_name : string;
  cd_type : SqlType;
  cd_constraints : list ColumnConstraint
}.

Inductive TableConstraint : Type :=
| UNIQUE_COLUMNS (columns : list string).

Record TableDef : Type := {
  td_columns : list ColumnDef;
  td_constraints : list TableConstraint
}.

Inductive Statement : Type :=
| CREATE_TABLE (if_not_exists : bool) (name : string) (def : TableDef).

(** The argument of one [execute]: the statements of the string, in
    order. *)
Definition Script : Type := list Statement.

#[global] Instance OnDelete_eq_dec : EqDecision OnDelete.
Proof. solve_decision. Defined.
#[global] Instance SqlType_eq_dec : EqDecision SqlType.
Proof. solve_decision. Defined.
#[global] Instance ColumnConstraint_eq_dec : EqDecision ColumnConstraint.
Proof. solve_decision. Defined.
#[global] Instance ColumnDef_eq_dec : EqDecision ColumnDef.
Proof. solve_decision. Defined.
#[global] Instance TableConstraint_eq_dec : EqDecision TableConstraint.
Proof. solve_decision. Defined.
#[global] Instance TableDef_eq_dec : EqDecision TableDef.
Proof. solve_decision. Defined.

(** ** PostgreSQL's catalog, as far as [CREATE TABLE] is concerned *)

(** A column can be the target of a foreign key when it is declared
    [PRIMARY KEY] or [UNIQUE]. *)
Definition is_key_column (column : string) (def : TableDef) : bool :=
  existsb
    (fun cd =>
       bool_decide (cd_name cd = column)
       && (bool_decide (PRIMARY_KEY ∈ cd_constraints cd)
           || bool_decide (UNIQUE ∈ cd_constraints cd)))
    (td_columns def).

Definition reference_resolves (catalog : gmap string TableDef)
    (c : ColumnConstraint) : bool :=
  match c with
  | REFERENCES table column _ =>
      match catalog !! table with
      | Some def => is_key_column column def
      | None => false
      end
  | _ => true
  end.

Definition references_resolve (catalog : gmap string TableDef)
    (def : TableDef) : bool :=
  forallb (fun cd => forallb (reference_resolves catalog) (cd_constraints cd))
          (td_columns def).

(** One statement: an existing relation of that name is an error, or with
    [IF NOT EXISTS] a notice that changes nothing; a foreign key must
    point at a key column of an existing table (or of the new one). *)
Definition exec_statement (st : Statement) (catalog : gmap string TableDef)
  : exn + gmap string TableDef :=
  match st with
  | CREATE_TABLE if_not_exists name def =>
      match catalog !! name with
      | Some _ =>
          if if_not_exists then inr catalog
          else inl (DatabaseError ("relation " +:+ name +:+ " already exists"))
      | None =>
          if references_resolve (<[name := def]> catalog) def
          then inr (<[name := def]> catalog)
          else inl (DatabaseError
                      ("foreign key of " +:+ name +:+ " has no target"))
      end
  end.

(** The statements of one [execute] run in order and stop at the first
    error. *)
Fixpoint exec_script (script : Script) (catalog : gmap string TableDef)
  : exn + gmap string TableDef :=
  match script with
  | [] => inr catalog
  | st :: rest =>
      match exec_statement st catalog with
      | inl e => inl e
      | inr catalog' => exec_script rest catalog'
      end
  end.

(** The driver in front of such a catalog.  [reach] says whether a
    connection can be had with the given parameters.  Data definition
    statements describe no columns and report a row count of -1. *)
Definition postgres (reach : ConnParams -> option exn)
  : Backend Script (gmap string TableDef) :=
  {| be_connect := fun params _ => reach params;
     be_execute := fun script catalog =>
       match exec_script script catalog with
       | inl e => inl e
       | inr catalog' =>
           inr {| description := None;
                  rowcount := (-1)%Z;
                  fetch := inl (DatabaseError "no results to fetch");
                  after := catalog' |}
       end;
     be_commit := fun _ => None |}.

(** ** [core/db_operations.py] *)

Module DbOperations.

(** The module body: [load_dotenv()], then the five constants, each
    [os.getenv] of its variable.  Nothing is checked. *)
Definition module_constants (dotenv environ : gmap string string)
  : ConnParams :=
  let env := load_dotenv dotenv environ in
  {| host := os_getenv env "POSTGRES_HOST";
     port := os_getenv env "POSTGRES_PORT";
     dbname := os_getenv env "POSTGRES_DB";
     user := os_getenv env "POSTGRES_USER";
     password := os_getenv env "POSTGRES_PASSWORD" |}.

Section Functions.
Context {Q Store : Type}.
Variable be : Backend Q Store.

(** Importing the module: the constants are bound and the last line
    of the file is printed. *)
Definition import_module (dotenv environ : gmap string string)
  : M Q Store ConnParams :=
  print "Database Operations: get_connection and create_tables functions defined." ;;
  ret (module_constants dotenv environ).

(** [get_connection()] *)
Definition get_connection (DB : ConnParams) : M Q Store nat :=
  call
    (try_except
       (conn <- psycopg2_connect be
                  {| host := host DB; port := port DB;
                     dbname := dbname DB; user := user DB;
                     password := password DB |} ;;
        print "--- Database Connection: Successfully connected to PostgreSQL. ---" ;;
        ret conn)
       (fun e =>
          print ("--- Database Connection: Error connecting to PostgreSQL: "
                 +:+ str_exn e +:+ " ---") ;;
          logging_exception "Database connection failed:" e ;;
          raise e)).

End Functions.

(** The two statements of [create_tables]. *)
Definition employees_table : TableDef :=
  {| td_columns :=
       [ {| cd_name := "id"; cd_type := SERIAL;
            cd_constraints := [PRIMARY_KEY] |};
         {| cd_name := "name"; cd_type := TEXT;
            cd_constraints := [NOT_NULL; UNIQUE] |} ];
     td_constraints := [] |}.

Definition employee_skills_table : TableDef :=
  {| td_columns :=
       [ {| cd_name := "id"; cd_type := SERIAL;
            cd_constraints := [PRIMARY_KEY] |};
         {| cd_name := "employee_id"; cd_type := INT;
            cd_constraints := [REFERENCES "employees" "id" CASCADE] |};
         {| cd_name := "tech"; cd_type := TEXT;
            cd_constraints := [NOT_NULL] |};
         {| cd_name := "experience_years"; cd_type := NUMERIC;
            cd_constraints := [NOT_NULL] |} ];
     td_constraints := [UNIQUE_COLUMNS ["employee_id"; "tech"]] |}.

Definition create_employees : Script :=
  [CREATE_TABLE true "employees" employees_table].

Definition create_employee_skills : Script :=
  [CREATE_TABLE true "employee_skills" employee_skills_table].

Section Bootstrap.
Context {Store : Type}.
Variable be : Backend Script Store.

(** [create_tables()] *)
Definition create_tables (DB : ConnParams) : M Script Store unit :=
  call
    (print "--- Database Setup: Attempting to create tables... ---" ;;
     assign_conn BoundNone ;;
     assign_curr BoundNone ;;
     try_finally
       (try_except
          (conn <- get_connection be DB ;;
           assign_conn (Bound conn) ;;
           curr <- conn_cursor conn ;;
           assign_curr (Bound curr) ;;
           cur_execute be curr create_employees ;;
           cur_execute be curr create_employee_skills ;;
           conn_commit be conn ;;
           print "--- Database Setup: Tables 'employees' and 'employee_skills' created successfully (if they didn't exist). ---")
          (fun e =>
             print ("--- Database Setup: An error occurred during table creation: "
                    +:+ str_exn e +:+ " ---") ;;
             logging_exception "Table creation failed:" e))
       (curr <- read_curr ;;
        (match curr with
         | Some c => cur_close c
         | None => ret tt
         end) ;;
        conn <- read_conn ;;
        match conn with
        | Some c =>
            conn_close c ;;
            print "--- Database Setup: Database connection closed after table creation. ---"
        | None => ret tt
        end)).

End Bootstrap.

End DbOperations.

(** ** [create_user_table.py] *)

Module CreateUserTable.

Definition module_constants (dotenv environ : gmap string string)
  : ConnParams :=
  let env := load_dotenv dotenv environ in
  {| host := os_getenv env "POSTGRES_HOST";
     port := os_getenv env "POSTGRES_PORT";
     dbname := os_getenv env "POSTGRES_DB";
     user := os_getenv env "POSTGRES_USER";
     password := os_getenv env "POSTGRES_PASSWORD" |}.

Definition employees_table : TableDef :=
  {| td_columns :=
       [ {| cd_name := "id"; cd_type := SERIAL;
            cd_constraints := [PRIMARY_KEY] |};
         {| cd_name := "name"; cd_type := TEXT;
            cd_constraints := [NOT_NULL] |} ];
     td_constraints := [] |}.

Definition employee_skills_table : TableDef :=
  {| td_columns :=
       [ {| cd_name := "id"; cd_type := SERIAL;
            cd_constraints := [PRIMARY_KEY] |};
         {| cd_name := "employee_id"; cd_type := INT;
            cd_constraints := [REFERENCES "employees" "id" CASCADE] |};
         {| cd_name := "tech"; cd_type := TEXT;
            cd_constraints := [NOT_NULL] |};
         {| cd_name := "experience_years"; cd_type := NUMERIC;
            cd_constraints := [NOT_NULL] |} ];
     td_constraints := [] |}.

(** The one string passed to [execute] holds both statements; the
    second has no [IF NOT EXISTS]. *)
Definition create_both : Script :=
  [ CREATE_TABLE true "employees" employees_table;
    CREATE_TABLE false "employee_skills" employee_skills_table ].

Section Bootstrap.
Context {Store : Type}.
Variable be : Backend Script Store.

(** [create_user_table()].  Neither [conn] nor [curr] is assigned
    before the [try]. *)
Definition create_user_table (DB : ConnParams) : M Script Store unit :=
  call
    (try_finally
       (try_except
          (conn <- psycopg2_connect be
                     {| host := host DB; port := port DB;
                        dbname := dbname DB; user := user DB;
                        password := password DB |} ;;
           assign_conn (Bound conn) ;;
           curr <- conn_cursor conn ;;
           assign_curr (Bound curr) ;;
           cur_execute be curr create_both ;;
           conn_commit be conn ;;
           print "Tables created successfully")
          (fun e => print ("An error occurred: " +:+ str_exn e)))
       (curr <- read_curr ;;
        (match curr with
         | Some c => cur_close c
         | None => ret tt
         end) ;;
        conn <- read_conn ;;
        match conn with
        | Some c => conn_close c
        | None => ret tt
        end)).

End Bootstrap.

End CreateUserTable.

(** ** [core/adk_config.py] *)

Module AdkConfig.

(** [convert_value], the inner function of [run_sql_query]. *)
Definition convert_value (value : PyValue) : PyValue :=
  match value with
  | PyDecimal d => PyFloat (float_of_Decimal d)
  | _ => value
  end.

(** [convert_row]:
    [{col: convert_value(val) for col, val in zip(columns, row)}]. *)
Definition convert_row (columns : list string) (row : list PyValue)
  : PyDict PyValue :=
  dict_of_items
    ((fun '(col, val) => (col, convert_value val)) <$> zip columns row).

Section Gateway.
Context {Store : Type}.
Variable be : Backend string Store.

(** [run_sql_query(tool_context, query)]; the tool context is not
    used by the body. *)
Definition run_sql_query (DB : ConnParams) (query : string)
  : M string Store Envelope :=
  call
    (print ("--- SQL Query Execution: Running query: " +:+ query +:+ " ---") ;;
     assign_conn BoundNone ;;
     try_finally
       (try_except
          (conn <- DbOperations.get_connection be DB ;;
           assign_conn (Bound conn) ;;
           with_cursor conn (fun cur =>
             cur_execute be cur query ;;
             description <- cur_description ;;
             match description with
             | Some ((_ :: _) as description) =>
                 let columns := col_name <$> description in
                 rows <- cur_fetchall cur ;;
                 let result := convert_row columns <$> rows in
                 ret (envelope_results result)
             | _ =>
                 conn_commit be conn ;;
                 rowcount <- cur_rowcount ;;
                 ret (envelope_message (pretty rowcount +:+ " rows affected."))
             end))
          (fun e =>
             print ("--- SQL Query Execution: Error executing query: "
                    +:+ str_exn e +:+ " ---") ;;
             logging_exception "SQL query execution failed:" e ;;
             ret (envelope_error (str_exn e))))
       (conn <- read_conn ;;
        match conn with
        | Some c =>
            conn_close c ;;
            print "--- SQL Query Execution: Database connection closed ---"
        | None => ret tt
        end)).

End Gateway.

End AdkConfig.

(** ** The module [db] that [agent.py] imports *)

Module Db.

(** Modelled from the spec: the module [db] is not among the source
    files.  Its [get_connection] is the Connection Provider of the spec:
    given the configured parameters it opens one connection per
    invocation; if the store is unreachable or the credentials are
    rejected the failure propagates to the caller, and there is no
    retry. *)
Definition get_connection {Q Store : Type} (be : Backend Q Store)
    (DB : ConnParams) : M Q Store nat :=
  psycopg2_connect be DB.

End Db.

(** ** [agent.py] *)

Module Agent.

(** [convert_row]: the conversion is written inline,
    [float(val) if isinstance(val, Decimal) else val]. *)
Definition convert_row (columns : list string) (row : list PyValue)
  : PyDict PyValue :=
  dict_of_items
    ((fun '(col, val) =>
        (col, match val with
              | PyDecimal d => PyFloat (float_of_Decimal d)
              | _ => val
              end)) <$> zip columns row).

Section Gateway.
Context {Store : Type}.
Variable be : Backend string Store.

(** [from db import get_connection]: the module [db] is not among the
    source files, so the function it provides is a parameter here. *)
Variable get_connection : M string Store nat.

(** [run_sql_query(tool_context, query)].  Unlike the copy in
    [core/adk_config.py], [conn] is not assigned before the [try]. *)
Definition run_sql_query (query : string) : M string Store Envelope :=
  call
    (print ("--- SQL Query Execution: Running query: " +:+ query +:+ " ---") ;;
     try_finally
       (try_except
          (conn <- call get_connection ;;
           assign_conn (Bound conn) ;;
           with_cursor conn (fun cur =>
             cur_execute be cur query ;;
             description <- cur_description ;;
             match description with
             | Some ((_ :: _) as description) =>
                 let columns := col_name <$> description in
                 rows <- cur_fetchall cur ;;
                 let result := convert_row columns <$> rows in
                 ret (envelope_results result)
             | _ =>
                 conn_commit be conn ;;
                 rowcount <- cur_rowcount ;;
                 ret (envelope_message (pretty rowcount +:+ " rows affected."))
             end))
          (fun e =>
             print ("--- SQL Query Execution: Error executing query: "
                    +:+ str_exn e +:+ " ---") ;;
             logging_exception "SQL query execution failed:" e ;;
             ret (envelope_error (str_exn e))))
       (conn <- read_conn ;;
        match conn with
        | Some c =>
            conn_close c ;;
            print "--- SQL Query Execution: Database connection closed ---"
        | None => ret tt
        end)).

End Gateway.

End Agent.


(** ** Observations on a call *)

(** The events a call added to the trace. *)
Definition new_events {Q Store : Type} (s s' : state Q Store)
  : list (event Q) :=
  drop (length (trace s)) (trace s').

Definition is_close {Q : Type} (ev : event Q) : bool :=
  match ev with
  | EvClose _ => true
  | _ => false
  end.

Definition is_commit {Q : Type} (ev : event Q) : bool :=
  match ev with
  | EvCommit _ => true
  | _ => false
  end.

Definition is_connect {Q : Type} (ev : event Q) : bool :=
  match ev with
  | EvConnect _ => true
  | _ => false
  end.

(** [if cur.description:] is taken when the description is a non-empty
    sequence; the [match] in [run_sql_query] is this test. *)
Definition truthy_description (d : option (list Column)) : bool :=
  match d with
  | Some (_ :: _) => true
  | _ => false
  end.

(** The names of a list, each kept at its first occurrence. *)
Fixpoint first_occurrences (names : list string) : list string :=
  match names with
  | [] => []
  | x :: rest => x :: filter (fun y => y <> x) (first_occurrences rest)
  end.

(** The exception of the first operation of a gateway call that fails,
    if any: connect, then execute, then [fetchall] or [commit] according
    to the description. *)
Definition gateway_failure {Store : Type} (be : Backend string Store)
    (DB : ConnParams) (query : string) (db : Store) : option exn :=
  match be_connect be DB db with
  | Some e => Some e
  | None =>
      match be_execute be query db with
      | inl e => Some e
      | inr r =>
          if truthy_description (description r)
          then match fetch r with
               | inl e => Some e
               | inr _ => None
               end
          else be_commit be (after r)
      end
  end.


(** The exception of the first step of [create_tables] that fails, if
    any. *)
Definition create_tables_failure {Store : Type} (be : Backend Script Store)
    (DB : ConnParams) (db : Store) : option exn :=
  match be_connect be DB db with
  | Some e => Some e
  | None =>
      match be_execute be DbOperations.create_employees db with
      | inl e => Some e
      | inr r1 =>
          match be_execute be DbOperations.create_employee_skills (after r1) with
          | inl e => Some e
          | inr r2 => be_commit be (after r2)
          end
      end
  end.

(** ** A small store for examples *)

Definition no_params : ConnParams :=
  {| host := None; port := None; dbname := None; user := None;
     password := None |}.

Definition local_params : ConnParams :=
  {| host := Some "localhost"; port := Some "5432";
     dbname := Some "staff"; user := Some "app";
     password := Some "secret" |}.

Definition insert_asha : string :=
  "INSERT INTO employees(name) VALUES ('Asha')".

Definition select_asha : string :=
  "SELECT name FROM employees WHERE name='Asha'".

Definition select_join : string :=
  "SELECT e.id, s.id, s.experience_years FROM employees e JOIN employee_skills s ON s.employee_id = e.id".

(** A store that holds employee names and understands three statements.
    It refuses connections without a host, and a second 'Asha'. *)
Definition staff_store : Backend string (list string) :=
  {| be_connect := fun params _ =>
       match host params with
       | Some _ => None
       | None => Some (DatabaseError "could not connect to server")
       end;
     be_execute := fun query names =>
       if decide (query = insert_asha) then
         if decide ("Asha" ∈ names)
         then inl (DatabaseError "duplicate key value violates unique constraint")
         else inr {| description := None;
                     rowcount := 1;
                     fetch := inl (DatabaseError "no results to fetch");
                     after := names ++ ["Asha"] |}
       else if decide (query = select_asha) then
         let found := filter (fun n => n = "Asha") names in
         inr {| description := Some [ {| col_name := "name"; type_code := 25 |} ];
                rowcount := Z.of_nat (length found);
                fetch := inr ((fun n => [PyStr n]) <$> found);
                after := names |}
       else if decide (query = select_join) then
         inr {| description :=
                  Some [ {| col_name := "id"; type_code := 23 |};
                         {| col_name := "id"; type_code := 23 |};
                         {| col_name := "experience_years"; type_code := 1700 |} ];
                rowcount := 1;
                fetch := inr [[PyInt 1; PyInt 7;
                               PyDecimal (DecFinite false 25 (-1))]];
                after := names |}
       else inl (DatabaseError "syntax error");
     be_commit := fun _ => None |}.

(** A PostgreSQL that accepts every connection, and one that is down. *)
Definition reachable : ConnParams -> option exn := fun _ => None.

Definition unreachable : ConnParams -> option exn :=
  fun _ => Some (DatabaseError "could not connect to server").

(** The durable catalog that a run of [create_tables] leaves behind: the
    two statements take effect together, or not at all. *)
Definition create_tables_catalog (reach : ConnParams -> option exn)
    (DB : ConnParams) (catalog : gmap string TableDef)
  : gmap string TableDef :=
  match reach DB with
  | Some _ => catalog
  | None =>
      match exec_script DbOperations.create_employees catalog with
      | inl _ => catalog
      | inr catalog1 =>
          match exec_script DbOperations.create_employee_skills catalog1 with
          | inl _ => catalog
          | inr catalog2 => catalog2
          end
      end
  end.

(** The environment variable behind each connection parameter. *)
Definition credentials : list (string * (ConnParams -> option string)) :=
  [ ("POSTGRES_HOST", host); ("POSTGRES_PORT", port);
    ("POSTGRES_DB", dbname); ("POSTGRES_USER", user);
    ("POSTGRES_PASSWORD", password) ].

(** ** The chat layer: exceptions, effects and state *)

Module Chat.

(** The exceptions of this layer; all are subclasses of [Exception]. *)
Inductive error : Type :=
| Exception (msg : string)   (* raised by the runner or a session service *)
| TypeError (msg : string)
| KeyError (key : string).

(** [str(e)] *)
Definition str_error (e : error) : string :=
  match e with
  | Exception msg => msg
  | TypeError msg => msg
  | KeyError key => "'" +:+ key +:+ "'"
  end.

Inductive result (A : Type) : Type :=
| Ok (a : A)
| Err (e : error).
Arguments Ok {A} a.
Arguments Err {A} e.

(** [genai_types.Part]: the attribute [text] may be missing, [None] or a
    string. *)
Record Part : Type := {
  text : option (option string)
}.

(** [genai_types.Content] *)
Record Content : Type := {
  role : option string;
  parts : option (list Part)
}.

(** An event of the runner; [repr] is what formatting it in an f-string
    gives. *)
Record Event : Type := {
  is_final_response : bool;
  content : option Content;
  repr : string
}.

(** What iterating over [runner.run_async(...)] gives: events, until the
    generator is exhausted or raises. *)
Inductive Stream : Type :=
| StreamEnd
| StreamYield (event : Event) (rest : Stream)
| StreamRaise (e : error).

(** A session of the session service; [state_repr] is what formatting
    [session.state] gives. *)
Record Session : Type := {
  state_repr : string
}.

(** The runner, as far as this code uses it:
    [runner.session_service.get_session(app_name, user_id, session_id)]
    and [runner.run_async(user_id, session_id, new_message)]. *)
Record Runner : Type := {
  get_session : string -> string -> string -> error + option Session;
  run_async : string -> string -> Content -> Stream
}.

(** [st.session_state], with the two keys this code uses: a string under
    [adk_session_id], a list of message dictionaries under
    [chat_history_employee_assistant]. *)
Record StSessionState : Type := {
  adk_session_id : option string;
  chat_history_employee_assistant : option (list (PyDict string))
}.

(** What the program does, in order. *)
Inductive effect : Type :=
| Print (line : string)
| LogException (msg : string) (e : error)
| GetSession (app_name user_id session_id : string)
| CreateSession (app_name user_id session_id : string)
| RunAsync (user_id session_id : string) (new_message : Content)
| Pull (event : Event)
| StChatMessage (name : string)
| StMarkdown (body : string) (unsafe_allow_html : bool)
| StSpinner (text : string)
| StError (body : string).

(** The state of the script: the effects so far, [st.session_state], and
    the value that [st.cache_resource] keeps for [initialize_adk]. *)
Record World : Type := {
  effects : list effect;
  session_state : StSessionState;
  resource_cache : option (Runner * string)
}.

(** What the surroundings decide: the clock, the random bytes, whether
    the session service accepts a new session, what the agent answers,
    the text of the measured duration (a difference of two floats,
    formatted with two decimals), and what the user typed. *)
Record Env : Type := {
  time_time : Z;
  os_urandom : Byte.byte * Byte.byte * Byte.byte * Byte.byte;
  create_session_error : string -> option error;
  agent : string -> string -> Content -> Stream;
  duration_text : string;
  chat_input : option string
}.

Definition C (A : Type) : Type := World -> result A * World.

Definition ret {A : Type} (a : A) : C A := fun w => (Ok a, w).

Definition bind {A B : Type} (m : C A) (k : A -> C B) : C B :=
  fun w =>
    match m w with
    | (Ok a, w') => k a w'
    | (Err e, w') => (Err e, w')
    end.

Definition raise {A : Type} (e : error) : C A := fun w => (Err e, w).

(** [try: body except Exception as e: handler(e)] *)
Definition try_except {A : Type} (body : C A) (handler : error -> C A)
  : C A :=
  fun w =>
    match body w with
    | (Ok a, w') => (Ok a, w')
    | (Err e, w') => handler e w'
    end.

Definition emit (ef : effect) : C unit :=
  fun w =>
    (Ok tt,
     {| effects := effects w ++ [ef];
        session_state := session_state w;
        resource_cache := resource_cache w |}).

Definition print (line : string) : C unit := emit (Print line).

Definition logging_exception (msg : string) (e : error) : C unit :=
  emit (LogException msg e).

Definition read_session_state : C StSessionState :=
  fun w => (Ok (session_state w), w).

Definition write_session_state (ss : StSessionState) : C unit :=
  fun w =>
    (Ok tt,
     {| effects := effects w;
        session_state := ss;
        resource_cache := resource_cache w |}).

(** [d[key]] on a dictionary *)
Definition subscript (d : PyDict string) (key : string) : C string :=
  match dict_get key d with
  | Some v => ret v
  | None => raise (KeyError key)
  end.

End Chat.

Declare Scope chat_scope.
Delimit Scope chat_scope with chat.
Notation "x <- m ;; k" := (Chat.bind m (fun x => k))
  (at level 20, m at level 99, k at level 200, only parsing) : chat_scope.
Notation "m ;; k" := (Chat.bind m (fun _ => k))
  (at level 100, k at level 200, right associativity, only parsing)
  : chat_scope.
Local Open Scope chat_scope.

(** The line feed of [print(f"\n...")]. *)
Definition newline : string := String (Ascii.ascii_of_nat 10) "".

(** ** [core/adk_utils.py] *)

Module AdkUtils.

Import Chat.

(** Constants imported from [core/adk_config.py]. *)
Definition APP_NAME_FOR_ADK : string := "greeting_app".
Definition USER_ID : string := "ketanraj".

(** The body of the [async for] loop, over what the generator still has
    to give.  The loop ends at the first final response ([break]); the
    result is the value of [final_response_text] after the loop. *)
Fixpoint run_loop (stream : Stream) (final_response_text : option string)
  : C (option string) :=
  match stream with
  | StreamEnd => ret final_response_text
  | StreamRaise e => raise e
  | StreamYield event rest =>
      emit (Pull event) ;;
      if is_final_response event then
        print "--- ADK Run: Final response event received. ---" ;;
        match content event with
        | Some {| parts := Some ({| text := Some t |} :: _) |} =>
            ret t
        | _ =>
            print ("--- ADK Run: WARNING - Final event received, but no text content found. Event: "
                   +:+ repr event +:+ " ---") ;;
            ret (Some "[Agent finished but produced no text output]")
        end
      else run_loop rest final_response_text
  end.

(** [genai_types.Content(role='user', parts=[Part(text=...)])] *)
Definition user_content (user_message_text : string) : Content :=
  {| role := Some "user";
     parts := Some [ {| text := Some (Some user_message_text) |} ] |}.

Section Turn.
Variable env : Env.

(** [run_adk_async(runner, session_id, user_message_text)] *)
Definition run_adk_async (runner : Runner)
    (session_id user_message_text : string) : C string :=
  print (newline +:+ "--- ADK Run: Starting async execution for session "
         +:+ session_id +:+ " ---") ;;
  print ("--- ADK Run: Processing User Query (truncated): '"
         +:+ substring 0 150 user_message_text +:+ "...' ---") ;;
  emit (GetSession APP_NAME_FOR_ADK USER_ID session_id) ;;
  match get_session runner APP_NAME_FOR_ADK USER_ID session_id with
  | inl e => raise e
  | inr None => ret "Error: ADK session not found. Please refresh the page."
  | inr (Some session) =>
      print ("--- ADK Run: Session state BEFORE agent run: "
             +:+ state_repr session +:+ " ---") ;;
      print "--- ADK Run: ADK session state is managed by the runner. ---" ;;
      let content := user_content user_message_text in
      let final_response_text :=
        Some "[Agent encountered an issue and did not produce a final response]" in
      final_response_text <-
        try_except
          (emit (RunAsync USER_ID session_id content) ;;
           run_loop (run_async runner USER_ID session_id content)
                    final_response_text)
          (fun e =>
             print ("--- ADK Run: !! EXCEPTION during agent execution: "
                    +:+ str_error e +:+ " !! ---") ;;
             logging_exception "ADK runner.run_async failed:" e ;;
             ret (Some ("Sorry, an error occurred while processing your request: "
                        +:+ str_error e))) ;;
      print ("--- ADK Run: Turn execution completed in "
             +:+ duration_text env +:+ " seconds. ---") ;;
      match final_response_text with
      | None => raise (TypeError "'NoneType' object is not subscriptable")
      | Some final_response_text =>
          print ("--- ADK Run: Final Response (truncated): '"
                 +:+ substring 0 150 final_response_text +:+ "...' ---") ;;
          ret final_response_text
      end
  end.

(** [run_adk_sync(runner, session_id, user_message_text)]:
    [asyncio.run] of the coroutine above. *)
Definition run_adk_sync (runner : Runner)
    (session_id user_message_text : string) : C string :=
  run_adk_async runner session_id user_message_text.

End Turn.

End AdkUtils.

(** ** [ui/streamlit_ui.py] *)

Module StreamlitUi.

Import Chat.

(** The loop [for msg in st.session_state[message_key]]: each message is
    shown under its role. *)
Fixpoint display_messages (messages : list (PyDict string)) : C unit :=
  match messages with
  | [] => ret tt
  | msg :: rest =>
      name <- subscript msg "role" ;;
      emit (StChatMessage name) ;;
      body <- subscript msg "content" ;;
      emit (StMarkdown body true) ;;
      display_messages rest
  end.

(** [st.session_state[message_key].append(message)] *)
Definition append_message (message : PyDict string) : C unit :=
  ss <- read_session_state ;;
  match chat_history_employee_assistant ss with
  | Some history =>
      write_session_state
        {| adk_session_id := adk_session_id ss;
           chat_history_employee_assistant := Some (history ++ [message]) |}
  | None => raise (KeyError "chat_history_employee_assistant")
  end.

Section Page.
Variable env : Env.

(** [display_chat_interface(adk_runner, current_session_id)] *)
Definition display_chat_interface (adk_runner : Runner)
    (current_session_id : string) : C unit :=
  ss <- read_session_state ;;
  (match chat_history_employee_assistant ss with
   | None =>
       write_session_state
         {| adk_session_id := adk_session_id ss;
            chat_history_employee_assistant := Some [] |}
   | Some _ => ret tt
   end) ;;
  ss <- read_session_state ;;
  (match chat_history_employee_assistant ss with
   | Some history => display_messages history
   | None => raise (KeyError "chat_history_employee_assistant")
   end) ;;
  match chat_input env with
  | Some (String c rest as user_prompt) =>
      emit (StChatMessage "user") ;;
      emit (StMarkdown user_prompt false) ;;
      append_message
        (dict_of_items [("role", "user"); ("content", user_prompt)]) ;;
      emit (StChatMessage "assistant") ;;
      emit (StSpinner "Thinking...") ;;
      agent_response <-
        try_except
          (agent_response <-
             AdkUtils.run_adk_sync env adk_runner current_session_id
               user_prompt ;;
           emit (StMarkdown agent_response false) ;;
           ret agent_response)
          (fun e =>
             let error_msg := "⚠️ Error: " +:+ str_error e in
             emit (StError error_msg) ;;
             logging_exception (str_error e) e ;;
             ret error_msg) ;;
      append_message
        (dict_of_items [("role", "assistant"); ("content", agent_response)])
  | _ => ret tt
  end.

End Page.

End StreamlitUi.

(** ** [core/adk_config.py]: the runner and the session *)

Module AdkSession.

Import Chat.

(** One hexadecimal digit, and [bytes.hex()] for the four bytes of
    [os.urandom(4)]. *)
Definition hex_digit (n : N) : string :=
  match n with
  | 0%N => "0" | 1%N => "1" | 2%N => "2" | 3%N => "3"
  | 4%N => "4" | 5%N => "5" | 6%N => "6" | 7%N => "7"
  | 8%N => "8" | 9%N => "9" | 10%N => "a" | 11%N => "b"
  | 12%N => "c" | 13%N => "d" | 14%N => "e" | _ => "f"
  end.

Definition hex_byte (b : Byte.byte) : string :=
  hex_digit (N.div (Byte.to_N b) 16) +:+ hex_digit (N.modulo (Byte.to_N b) 16).

Definition hex4 (bs : Byte.byte * Byte.byte * Byte.byte * Byte.byte)
  : string :=
  let '(b0, b1, b2, b3) := bs in
  hex_byte b0 +:+ hex_byte b1 +:+ hex_byte b2 +:+ hex_byte b3.

(** An [InMemorySessionService]: the sessions it holds, by application,
    user and session id.  A new one holds none. *)
Definition new_session_service : gmap (string * string * string) Session :=
  ∅.

Section Init.
Variable env : Env.

(** [Runner(agent=root_agent, app_name=..., session_service=...)].  The
    runner keeps a reference to the service, so it sees the sessions
    created after it was built: it is formed here from the service as the
    function leaves it. *)
Definition make_runner (service : gmap (string * string * string) Session)
  : Runner :=
  {| get_session := fun app_name user_id session_id =>
       inr (service !! (app_name, user_id, session_id));
     run_async := agent env |}.

(** [asyncio.run(session_service.create_session(..., state={}))] *)
Definition create_session
    (service : gmap (string * string * string) Session)
    (app_name user_id session_id : string)
  : C (gmap (string * string * string) Session) :=
  emit (CreateSession app_name user_id session_id) ;;
  match create_session_error env session_id with
  | Some e => raise e
  | None =>
      ret (<[(app_name, user_id, session_id) := {| state_repr := "{}" |}]>
             service)
  end.

(** The body of [initialize_adk]. *)
Definition initialize_adk_body : C (Runner * string) :=
  print "--- ADK Init: Attempting to initialize Runner and Session Service... ---" ;;
  let session_service := new_session_service in
  print "--- ADK Init: Runner and Session Service initialized successfully ---" ;;
  ss <- read_session_state ;;
  service_and_id <-
    match adk_session_id ss with
    | None =>
        let session_id :=
          "streamlit_adk_session_" +:+ pretty (time_time env) +:+ "_"
          +:+ hex4 (os_urandom env) in
        write_session_state
          {| adk_session_id := Some session_id;
             chat_history_employee_assistant :=
               chat_history_employee_assistant ss |} ;;
        print ("--- ADK Init: Created new session with ID: " +:+ session_id
               +:+ " ---") ;;
        session_service <-
          try_except
            (session_service <-
               create_session session_service AdkUtils.APP_NAME_FOR_ADK
                 AdkUtils.USER_ID session_id ;;
             print "--- ADK Init: Successfully created new session in ADK SessionService. ---" ;;
             ret session_service)
            (fun e =>
               print ("--- ADK Init: FATAL ERROR - Could not create initial session in ADK SessionService: "
                      +:+ str_error e +:+ " ---") ;;
               logging_exception "ADK Session Service create_session failed:" e ;;
               raise e) ;;
        ret (session_service, session_id)
    | Some session_id =>
        print ("--- ADK Init: Reusing existing ADK session ID from Streamlit state: "
               +:+ session_id +:+ " ---") ;;
        emit (GetSession AdkUtils.APP_NAME_FOR_ADK AdkUtils.USER_ID session_id) ;;
        match session_service
                !! (AdkUtils.APP_NAME_FOR_ADK, AdkUtils.USER_ID, session_id) with
        | Some _ => ret (session_service, session_id)
        | None =>
            print ("--- ADK Init: WARNING - Session " +:+ session_id
                   +:+ " not found in InMemorySessionService memory (likely due to script restart). Recreating session. State will be lost. ---") ;;
            session_service <-
              try_except
                (create_session session_service AdkUtils.APP_NAME_FOR_ADK
                   AdkUtils.USER_ID session_id)
                (fun e =>
                   print ("--- ADK Init: ERROR - Could not recreate missing session "
                          +:+ session_id +:+ " in ADK SessionService: "
                          +:+ str_error e +:+ " ---") ;;
                   logging_exception "ADK Session Service recreation failed:" e ;;
                   ret session_service) ;;
            ret (session_service, session_id)
        end
    end ;;
  let '(session_service, session_id) := service_and_id in
  print ("--- ADK Init: Initialization sequence complete. Runner is ready. Active Session ID: "
         +:+ session_id +:+ " ---") ;;
  ret (make_runner session_service, session_id).

(** [@st.cache_resource]: the body runs until it has returned once; from
    then on the value it returned is handed out again. *)
Definition initialize_adk : C (Runner * string) :=
  fun w =>
    match resource_cache w with
    | Some value => (Ok value, w)
    | None =>
        match initialize_adk_body w with
        | (Ok value, w') =>
            (Ok value,
             {| effects := effects w';
                session_state := session_state w';
                resource_cache := Some value |})
        | (Err e, w') => (Err e, w')
        end
    end.

End Init.

End AdkSession.

Local Close Scope chat_scope.

(** ** Further observations *)

Definition is_cursor_close {Q : Type} (ev : event Q) : bool :=
  match ev with
  | EvCursorClose _ => true
  | _ => false
  end.

(** The calls made to the driver, as opposed to what is printed or
    logged. *)
Definition is_driver_call {Q : Type} (ev : event Q) : bool :=
  match ev with
  | EvPrint _ | EvLogException _ _ => false
  | _ => true
  end.

(** A catalog in which [employees] exists with [id] usable as a foreign
    key target, and [employee_skills] does not exist yet. *)
Definition employees_only : gmap string TableDef :=
  {[ "employees" := DbOperations.employees_table ]}.

Definition both_tables : gmap string TableDef :=
  <["employee_skills" := DbOperations.employee_skills_table]> employees_only.

(** ** Observations on the chat layer *)

(** The effects a call added. *)
Definition new_effects (w w' : Chat.World) : list Chat.effect :=
  drop (length (Chat.effects w)) (Chat.effects w').

(** The events taken from the runner, in order. *)
Definition pulled (efs : list Chat.effect) : list Chat.Event :=
  omap (fun ef => match ef with Chat.Pull ev => Some ev | _ => None end) efs.

(** Whether an effect starts or advances a run of the agent. *)
Definition runs_agent (ef : Chat.effect) : bool :=
  match ef with
  | Chat.RunAsync _ _ _ | Chat.Pull _ => true
  | _ => false
  end.

(** A generator that yields [events] and then goes on as [rest]. *)
Definition yields (events : list Chat.Event) (rest : Chat.Stream)
  : Chat.Stream :=
  foldr Chat.StreamYield rest events.

(** A chat message has a role and a content. *)
Definition complete_message (msg : PyDict string) : Prop :=
  is_Some (dict_get "role" msg) /\ is_Some (dict_get "content" msg).

(** The stored history; an absent list counts as empty. *)
Definition history_of (w : Chat.World) : list (PyDict string) :=
  default [] (Chat.chat_history_employee_assistant (Chat.session_state w)).

(** What showing the stored messages does. *)
Definition shown (messages : list (PyDict string)) : list Chat.effect :=
  messages ≫= (fun msg =>
    [ Chat.StChatMessage (default "" (dict_get "role" msg));
      Chat.StMarkdown (default "" (dict_get "content" msg)) true ]).

(** The roles of the stored messages. *)
Definition roles (messages : list (PyDict string)) : list string :=
  omap (dict_get "role") messages.

(** User and assistant take turns, the user first. *)
Fixpoint alternating (names : list string) : bool :=
  match names with
  | [] => true
  | u :: a :: rest =>
      bool_decide (u = "user") && bool_decide (a = "assistant")
      && alternating rest
  | _ => false
  end.

(** What [st.chat_input] returned counts as a prompt when it is a
    non-empty string. *)
Definition prompt_of (env : Chat.Env) : option string :=
  match Chat.chat_input env with
  | Some (String c rest) => Some (String c rest)
  | _ => None
  end.

(** The assistant's entry for a prompt: the answer of the turn, or the
    text of the exception that the turn raised. *)
Definition assistant_text (env : Chat.Env) (runner : Chat.Runner)
    (session_id user_prompt : string) (w : Chat.World) : string :=
  match (AdkUtils.run_adk_sync env runner session_id user_prompt w).1 with
  | Chat.Ok answer => answer
  | Chat.Err e => "⚠️ Error: " +:+ Chat.str_error e
  end.

(** The session id that a first visit generates. *)
Definition fresh_session_id (env : Chat.Env) : string :=
  "streamlit_adk_session_" +:+ pretty (Chat.time_time env) +:+ "_"
  +:+ AdkSession.hex4 (Chat.os_urandom env).

(** The world after some more effects. *)
Definition add_effects (w : Chat.World) (efs : list Chat.effect)
  : Chat.World :=
  {| Chat.effects := Chat.effects w ++ efs;
     Chat.session_state := Chat.session_state w;
     Chat.resource_cache := Chat.resource_cache w |}.

(** A computation that reads nothing from the world and only adds
    effects to it. *)
Definition only_emits {A : Type} (m : Chat.C A) : Prop :=
  exists r efs, forall w, m w = (r, add_effects w efs).

(** ** A small agent for examples *)

Definition thinking : Chat.Event :=
  {| Chat.is_final_response := false;
     Chat.content := None;
     Chat.repr := "Event(partial)" |}.

Definition answer_event (body : string) : Chat.Event :=
  {| Chat.is_final_response := true;
     Chat.content :=
       Some {| Chat.role := Some "model";
               Chat.parts := Some [ {| Chat.text := Some (Some body) |} ] |};
     Chat.repr := "Event(final)" |}.

(** An agent that thinks once and then says that it added John; a
    session service that accepts every session unless [refuse] is set. *)
Definition example_env (refuse : bool) (typed : option string) : Chat.Env :=
  {| Chat.time_time := 1700000000;
     Chat.os_urandom := (Byte.x0a, Byte.xff, Byte.x00, Byte.x7b);
     Chat.create_session_error := fun _ =>
       if refuse then Some (Chat.Exception "session service unavailable")
       else None;
     Chat.agent := fun _ _ _ =>
       yields [thinking]
         (Chat.StreamYield (answer_event "Added John.")
            (Chat.StreamRaise (Chat.Exception "never reached")));
     Chat.duration_text := "0.42";
     Chat.chat_input := typed |}.

Definition example_runner (refuse : bool) (known : list string)
  : Chat.Runner :=
  {| Chat.get_session := fun _ _ session_id =>
       if bool_decide (session_id ∈ known)
       then inr (Some {| Chat.state_repr := "{}" |})
       else inr None;
     Chat.run_async := Chat.agent (example_env refuse None) |}.

Definition empty_world : Chat.World :=
  {| Chat.effects := [];
     Chat.session_state :=
       {| Chat.adk_session_id := None;
          Chat.chat_history_employee_assistant := None |};
     Chat.resource_cache := None |}.

(** ** Proof support *)

Lemma new_events_app {Q Store : Type} (s s' : state Q Store) evs :
  trace s' = trace s ++ evs -> new_events s s' = evs.
Proof.
  intros H. unfold new_events. rewrite H. apply drop_app_length.
Qed.

(** Unfolding the monad, then one case split per answer of the driver. *)
Ltac unfold_py :=
  unfold AdkConfig.run_sql_query, Agent.run_sql_query,
    DbOperations.create_tables, CreateUserTable.create_user_table,
    DbOperations.get_connection, Db.get_connection,
    DbOperations.import_module,
    with_cursor, call, try_finally, try_except, bind, ret, raise,
    print, logging_exception, emit, assign_conn, assign_curr,
    read_conn, read_curr, read_local,
    psycopg2_connect, conn_cursor, cur_execute, cur_description,
    cur_rowcount, cur_fetchall, conn_commit, cur_close, conn_close.

Ltac step_py :=
  cbn -[String.append pretty drop];
  match goal with
  | |- context [match be_connect ?b ?p ?d with _ => _ end] =>
      destruct (be_connect b p d) eqn:?
  | |- context [match be_execute ?b ?q ?d with _ => _ end] =>
      destruct (be_execute b q d) eqn:?
  | |- context [match be_commit ?b ?d with _ => _ end] =>
      destruct (be_commit b d) eqn:?
  | |- context [match fetch ?r with _ => _ end] =>
      destruct (fetch r) eqn:?
  | |- context [match description ?r with _ => _ end] =>
      destruct (description r) as [[|? ?]|] eqn:?
  end.

Ltac run_py := unfold_py; repeat step_py; cbn -[String.append pretty drop].

(** The events of a call, read off the final trace. *)
Ltac trace_py :=
  match goal with
  | |- context [new_events ?s ?s'] =>
      rewrite (new_events_app s s' _ ltac:(cbn; rewrite <- ?app_assoc; reflexivity))
  end.

(** ** The conversion to [float] on a few values *)

(** [float(Decimal('2.5'))], [float(Decimal('0.1'))], [float(Decimal('-0'))],
    [float(Decimal('1E+309'))], [float(Decimal('5E-324'))]. *)
Example float_of_Decimal_examples :
  float_of_Decimal (DecFinite false 25 (-1))
    = S754_finite false 5629499534213120 (-51)
  /\ float_of_Decimal (DecFinite false 1 (-1))
    = S754_finite false 7205759403792794 (-56)
  /\ float_of_Decimal (DecFinite true 0 0) = S754_zero true
  /\ float_of_Decimal (DecFinite false 1 309) = S754_infinity false
  /\ float_of_Decimal (DecFinite false 5 (-324))
    = S754_finite false 1 (-1074).
Proof. repeat split; vm_compute; reflexivity. Qed.

(** ** Dictionaries *)

Section DictFacts.
Context {V : Type}.
Implicit Types (d : PyDict V) (items : list (string * V)) (k : string) (v : V).

Lemma dict_keys_set k v d :
  dict_keys (dict_set k v d)
  = if decide (k ∈ dict_keys d) then dict_keys d else dict_keys d ++ [k].
Proof.
  unfold dict_keys. induction d as [|[k' v'] d IH]; cbn.
  - rewrite decide_False by (apply not_elem_of_nil). reflexivity.
  - destruct (decide (k = k')) as [->|Hne]; cbn.
    + rewrite decide_True by (apply list_elem_of_here). reflexivity.
    + rewrite IH. destruct (decide (k ∈ d.*1)) as [Hin|Hnin].
      * rewrite decide_True by (apply list_elem_of_further, Hin). reflexivity.
      * rewrite decide_False; [reflexivity|].
        intros Hin. apply elem_of_cons in Hin as [?|?]; congruence.
Qed.

Lemma dict_get_set k' k v d :
  dict_get k' (dict_set k v d)
  = if decide (k' = k) then Some v else dict_get k' d.
Proof.
  induction d as [|[k0 v0] d IH]; cbn.
  - destruct (decide (k' = k)); reflexivity.
  - destruct (decide (k = k0)) as [->|Hne]; cbn.
    + destruct (decide (k' = k0)); reflexivity.
    + rewrite IH. destruct (decide (k' = k0)) as [->|?]; [|reflexivity].
      rewrite decide_False by congruence. reflexivity.
Qed.

Lemma dict_of_items_snoc items k v :
  dict_of_items (items ++ [(k, v)]) = dict_set k v (dict_of_items items).
Proof. unfold dict_of_items. rewrite fold_left_app. reflexivity. Qed.

End DictFacts.

Lemma elem_of_first_occurrences (x : string) (l : list string) :
  x ∈ first_occurrences l <-> x ∈ l.
Proof.
  induction l as [|y l IH]; cbn; [reflexivity|].
  rewrite !elem_of_cons, list_elem_of_filter, IH.
  destruct (decide (x = y)); tauto.
Qed.

Lemma first_occurrences_snoc (l : list string) (k : string) :
  first_occurrences (l ++ [k])
  = if decide (k ∈ l) then first_occurrences l else first_occurrences l ++ [k].
Proof.
  induction l as [|x l IH]; cbn.
  - rewrite decide_False by (apply not_elem_of_nil). reflexivity.
  - rewrite IH. destruct (decide (k = x)) as [->|Hne].
    + rewrite (decide_True (P := x ∈ x :: l)) by (apply list_elem_of_here).
      destruct (decide (x ∈ l)); [reflexivity|].
      rewrite filter_app. cbn. rewrite decide_False by tauto.
      rewrite app_nil_r. reflexivity.
    + destruct (decide (k ∈ l)) as [Hin|Hnin].
      * rewrite decide_True by (apply list_elem_of_further, Hin). reflexivity.
      * rewrite decide_False
          by (intros H; apply elem_of_cons in H as [?|?]; congruence).
        rewrite filter_app. cbn. rewrite decide_True by assumption.
        reflexivity.
Qed.

Lemma NoDup_first_occurrences (l : list string) : NoDup (first_occurrences l).
Proof.
  induction l as [|x l IH]; cbn; [constructor|].
  constructor.
  - rewrite list_elem_of_filter. tauto.
  - apply NoDup_filter, IH.
Qed.

Lemma first_occurrences_NoDup (l : list string) :
  NoDup l -> first_occurrences l = l.
Proof.
  induction 1 as [|x l Hx Hl IH]; cbn; [reflexivity|].
  rewrite IH. f_equal.
  clear -Hx. induction l as [|y l IHl]; [reflexivity|].
  apply not_elem_of_cons in Hx as [Hxy Hx]. cbn.
  rewrite decide_True by congruence. f_equal. apply IHl, Hx.
Qed.

Lemma length_first_occurrences (l : list string) :
  (length (first_occurrences l) <= length l)%nat.
Proof.
  induction l as [|x l IH]; cbn; [lia|].
  pose proof (length_filter (fun y => y <> x) (first_occurrences l)). lia.
Qed.

Lemma length_first_occurrences_dup (l : list string) :
  ~ NoDup l -> (length (first_occurrences l) < length l)%nat.
Proof.
  induction l as [|x l IH]; cbn; intros Hdup.
  - destruct Hdup. constructor.
  - pose proof (length_filter (fun y => y <> x) (first_occurrences l)) as Hf.
    pose proof (length_first_occurrences l) as Hl.
    destruct (decide (x ∈ l)) as [Hin|Hnin].
    + apply elem_of_first_occurrences in Hin.
      pose proof (length_filter_lt (fun y => y <> x) _ x Hin) as Hlt.
      specialize (Hlt ltac:(tauto)). lia.
    + assert (~ NoDup l) as Hl' by (intros ?; apply Hdup; constructor; assumption).
      specialize (IH Hl'). lia.
Qed.

Lemma dict_keys_of_items {V : Type} (items : list (string * V)) :
  dict_keys (dict_of_items items) = first_occurrences items.*1.
Proof.
  induction items as [|[k v] items IH] using rev_ind; [reflexivity|].
  rewrite dict_of_items_snoc, dict_keys_set, fmap_app, IH. cbn.
  rewrite first_occurrences_snoc.
  destruct (decide (k ∈ items.*1)) as [Hin|Hnin].
  - rewrite decide_True by (apply elem_of_first_occurrences, Hin). reflexivity.
  - rewrite decide_False by (rewrite elem_of_first_occurrences; exact Hnin).
    reflexivity.
Qed.

(** The value stored under a key is that of its last item. *)
Lemma dict_get_of_items_last {V : Type} (items : list (string * V))
    (j : nat) (k : string) (v : V) :
  items !! j = Some (k, v) ->
  (forall j' k' v', (j < j')%nat -> items !! j' = Some (k', v') -> k' <> k) ->
  dict_get k (dict_of_items items) = Some v.
Proof.
  revert j. induction items as [|[k0 v0] items IH] using rev_ind;
    intros j Hj Hlast.
  - rewrite lookup_nil in Hj. discriminate.
  - rewrite dict_of_items_snoc, dict_get_set.
    destruct (decide (j < length items)%nat) as [Hlt|Hge].
    + rewrite lookup_app_l in Hj by assumption.
      assert (k0 <> k) as Hne.
      { apply (Hlast (length items) k0 v0 Hlt).
        rewrite lookup_app_r by lia. rewrite Nat.sub_diag. reflexivity. }
      rewrite decide_False by congruence.
      apply (IH j Hj). intros j' k' v' Hjj' Hj'.
      apply (Hlast j' k' v' Hjj').
      rewrite lookup_app_l by (apply lookup_lt_Some in Hj'; assumption).
      exact Hj'.
    + rewrite lookup_app_r in Hj by lia.
      destruct (j - length items)%nat eqn:E; cbn in Hj; [|discriminate].
      inversion Hj; subst. rewrite decide_True by reflexivity. reflexivity.
Qed.

(** ** The gateway, case by case *)

Lemma agent_convert_row_eq (columns : list string) (row : list PyValue) :
  Agent.convert_row columns row = AdkConfig.convert_row columns row.
Proof. reflexivity. Qed.

(** A statement with a non-empty description whose rows can be fetched:
    both copies return the converted rows. *)
Lemma run_sql_query_select {Store : Type} (be : Backend string Store)
    (DB : ConnParams) (query : string) (s : state string Store)
    (r : Executed Store) (cols : list Column) (rows : list (list PyValue)) :
  be_connect be DB (committed s) = None ->
  be_execute be query (committed s) = inr r ->
  description r = Some cols ->
  cols <> [] ->
  fetch r = inr rows ->
  (AdkConfig.run_sql_query be DB query s).1
    = Returned (envelope_results
                  (AdkConfig.convert_row (col_name <$> cols) <$> rows))
  /\ (Agent.run_sql_query be (Db.get_connection be DB) query s).1
    = Returned (envelope_results
                  (AdkConfig.convert_row (col_name <$> cols) <$> rows)).
Proof.
  intros Hc He Hd Hne Hf. destruct DB. destruct cols as [|c cs]; [congruence|].
  split; unfold_py; cbn -[String.append pretty];
    rewrite Hc; cbn -[String.append pretty];
    rewrite He; cbn -[String.append pretty];
    rewrite Hd; cbn -[String.append pretty];
    rewrite Hf; reflexivity.
Qed.

(** X1.  The copy in [core/adk_config.py] returns an envelope whatever
    the driver does: the error envelope with the text of the first
    failure (connect, execute, fetch or commit) when there is one, and an
    envelope with status success otherwise. *)
Lemma adk_run_sql_query_never_raises {Store : Type}
    (be : Backend string Store) (DB : ConnParams) (query : string)
    (s : state string Store) :
  exists env,
    (AdkConfig.run_sql_query be DB query s).1 = Returned env
    /\ match gateway_failure be DB query (committed s) with
       | Some e => env = envelope_error (str_exn e)
       | None => dict_get "status" env = Some (EStr "success")
       end.
Proof.
  destruct DB. unfold gateway_failure. run_py.
  all: simplify_eq.
  all: eexists; split; reflexivity.
Qed.

(** C1.  In [agent.py] the local [conn] is first assigned inside the
    [try].  When [get_connection] raises, the handler prepares the error
    envelope, but the [finally] block then reads [conn], which was never
    bound: the call ends with [UnboundLocalError] instead of returning
    the envelope.  This holds for whatever the absent module [db]
    provides as [get_connection], as long as it raises. *)
Theorem agent_run_sql_query_raises {Store : Type}
    (be : Backend string Store) (get_connection : M string Store nat)
    (query : string) (s : state string Store) :
  (forall s0, exists e, (get_connection s0).1 = Raised e) ->
  (Agent.run_sql_query be get_connection query s).1
  = Raised (UnboundLocalError "conn").
Proof.
  intros Hraises. unfold_py. cbn -[String.append pretty].
  match goal with
  | |- context [get_connection ?s0] =>
      destruct (Hraises s0) as [e He];
      destruct (get_connection s0) as [[c|e'] s1]
  end.
  - discriminate.
  - reflexivity.
Qed.

Lemma agent_run_sql_query_raises_witness :
  (Agent.run_sql_query staff_store (Db.get_connection staff_store no_params)
     select_asha (boot [])).1
  = Raised (UnboundLocalError "conn").
Proof.
  apply (agent_run_sql_query_raises staff_store
           (Db.get_connection staff_store no_params) select_asha (boot [])).
  intros s0. eexists. reflexivity.
Defined.

(** C2.  In both copies of the gateway, a call that obtains a
    connection closes it exactly once before it returns, and closes
    nothing else, whichever way the call ends: with rows, after the
    commit of a write, or with the error envelope after [execute],
    [fetchall] or [commit] raised. *)
Theorem run_sql_query_closes_once {Store : Type}
    (be : Backend string Store) (DB : ConnParams) (query : string)
    (s : state string Store) :
  be_connect be DB (committed s) = None ->
  filter is_close (new_events s (AdkConfig.run_sql_query be DB query s).2)
    = [EvClose (opened s)]
  /\ filter is_close (new_events s (Agent.run_sql_query be (Db.get_connection be DB) query s).2)
    = [EvClose (opened s)].
Proof.
  intros Hc. destruct DB. split.
  - run_py. all: try congruence.
    all: trace_py; reflexivity.
  - run_py. all: try congruence.
    all: trace_py; reflexivity.
Qed.

(** A gateway call whose [execute] raises (a second 'Asha' violates the
    unique constraint) still closes its connection once. *)
Lemma run_sql_query_closes_once_witness :
  (AdkConfig.run_sql_query staff_store local_params insert_asha
     (boot ["Asha"])).1
  = Returned (envelope_error "duplicate key value violates unique constraint")
  /\ filter is_close
       (new_events (boot ["Asha"])
          (AdkConfig.run_sql_query staff_store local_params insert_asha
             (boot ["Asha"])).2)
     = [EvClose 0%nat]
  /\ filter is_close
       (new_events (boot ["Asha"])
          (Agent.run_sql_query staff_store (Db.get_connection staff_store local_params) insert_asha
             (boot ["Asha"])).2)
     = [EvClose 0%nat].
Proof.
  split; [reflexivity|].
  apply (run_sql_query_closes_once staff_store local_params insert_asha
           (boot ["Asha"])).
  reflexivity.
Defined.

(** C4, as the code has it.  A statement that executes without a
    (non-empty) column description and whose commit succeeds: the gateway
    calls [commit] once, what the statement did becomes durable, and the
    envelope is [{status: success, message: N rows affected.}], where N
    is the driver's [rowcount] in decimal and the message ends with a
    full stop. *)
Theorem run_sql_query_write {Store : Type} (be : Backend string Store)
    (DB : ConnParams) (query : string) (s : state string Store)
    (r : Executed Store) :
  be_connect be DB (committed s) = None ->
  be_execute be query (committed s) = inr r ->
  truthy_description (description r) = false ->
  be_commit be (after r) = None ->
  (AdkConfig.run_sql_query be DB query s).1
    = Returned (envelope_message (pretty (rowcount r) +:+ " rows affected."))
  /\ committed (AdkConfig.run_sql_query be DB query s).2 = after r
  /\ filter is_commit (new_events s (AdkConfig.run_sql_query be DB query s).2)
     = [EvCommit (opened s)].
Proof.
  intros Hc He Hd Hk. destruct DB.
  unfold_py; cbn -[String.append pretty drop].
  rewrite Hc; cbn -[String.append pretty drop].
  rewrite He; cbn -[String.append pretty drop].
  destruct (description r) as [[|c cs]|]; try discriminate.
  all: cbn -[String.append pretty drop]; rewrite Hk;
    cbn -[String.append pretty drop].
  all: split; [reflexivity|split; [reflexivity|]].
  all: trace_py; reflexivity.
Qed.

Lemma run_sql_query_write_witness :
  (AdkConfig.run_sql_query staff_store local_params insert_asha (boot [])).1
    = Returned (envelope_message "1 rows affected.")
  /\ committed
       (AdkConfig.run_sql_query staff_store local_params insert_asha (boot [])).2
     = ["Asha"].
Proof.
  destruct (run_sql_query_write staff_store local_params insert_asha (boot [])
              {| description := None; rowcount := 1;
                 fetch := inl (DatabaseError "no results to fetch");
                 after := ["Asha"] |}
              eq_refl eq_refl eq_refl eq_refl) as (H1 & H2 & _).
  split; [exact H1|exact H2].
Defined.

(** C4, as the spec words it: the message for one inserted row is not
    [1 rows affected] but [1 rows affected.], with a full stop. *)
Lemma run_sql_query_write_message_differs :
  (AdkConfig.run_sql_query staff_store local_params insert_asha (boot [])).1
    = Returned (envelope_message "1 rows affected.")
  /\ (AdkConfig.run_sql_query staff_store local_params insert_asha (boot [])).1
     <> Returned (envelope_message "1 rows affected").
Proof.
  split; [reflexivity|]. vm_compute. discriminate.
Qed.


(** ** Rows as dictionaries *)

Lemma dict_set_fresh {V : Type} (k : string) (v : V) (d : PyDict V) :
  k ∉ dict_keys d -> dict_set k v d = d ++ [(k, v)].
Proof.
  unfold dict_keys. induction d as [|[k' v'] d IH]; cbn; intros Hk.
  - reflexivity.
  - apply not_elem_of_cons in Hk as [Hne Hk].
    rewrite decide_False by assumption. rewrite IH by assumption.
    reflexivity.
Qed.

Lemma dict_of_items_NoDup {V : Type} (items : list (string * V)) :
  NoDup items.*1 -> dict_of_items items = items.
Proof.
  induction items as [|[k v] items IH] using rev_ind; intros Hnd.
  - reflexivity.
  - rewrite fmap_app in Hnd. apply NoDup_app in Hnd as (Hnd & Hk & _).
    rewrite dict_of_items_snoc, IH by assumption.
    apply dict_set_fresh. unfold dict_keys. intros Hin.
    apply (Hk k Hin). cbn. apply list_elem_of_here.
Qed.



(** The items from which [convert_row] builds its dictionary. *)
Lemma convert_row_items (columns : list string) (row : list PyValue) :
  (fun '(col, val) => (col, AdkConfig.convert_value val)) <$> zip columns row
  = zip columns (AdkConfig.convert_value <$> row).
Proof.
  revert row. induction columns as [|c columns IH]; intros [|v row];
    cbn; try reflexivity.
  f_equal. apply IH.
Qed.

Lemma convert_row_keys (columns : list string) (row : list PyValue) :
  length row = length columns ->
  dict_keys (AdkConfig.convert_row columns row) = first_occurrences columns.
Proof.
  intros Hlen. unfold AdkConfig.convert_row.
  rewrite dict_keys_of_items, convert_row_items, fst_zip; [reflexivity|].
  rewrite length_fmap. lia.
Qed.

Lemma convert_row_NoDup (columns : list string) (row : list PyValue) :
  length row = length columns ->
  NoDup columns ->
  AdkConfig.convert_row columns row
  = zip columns (AdkConfig.convert_value <$> row).
Proof.
  intros Hlen Hnd. unfold AdkConfig.convert_row.
  rewrite convert_row_items. apply dict_of_items_NoDup.
  rewrite fst_zip; [assumption|]. rewrite length_fmap. lia.
Qed.

Lemma convert_row_last (columns : list string) (row : list PyValue)
    (j : nat) (name : string) (cell : PyValue) :
  columns !! j = Some name ->
  row !! j = Some cell ->
  (forall j', (j < j')%nat -> columns !! j' <> Some name) ->
  dict_get name (AdkConfig.convert_row columns row)
  = Some (AdkConfig.convert_value cell).
Proof.
  intros Hname Hcell Hlast. unfold AdkConfig.convert_row.
  rewrite convert_row_items.
  apply (dict_get_of_items_last _ j).
  - apply lookup_zip_with_Some. exists name, (AdkConfig.convert_value cell).
    rewrite list_lookup_fmap, Hcell. auto.
  - intros j' k' v' Hjj' Hj' ->.
    apply lookup_zip_with_Some in Hj' as (x & y & Hxy & Hx & _).
    inversion Hxy; subst. exact (Hlast j' Hjj' Hx).
Qed.



(** C3, as the code has it.  For a statement with a non-empty column
    description whose rows are fetched, the gateway returns
    [{status: success, results: list}]; the list has one dictionary per
    fetched row (as many as the driver's [rowcount], when that counts the
    rows), in the order the driver returned them; the keys of each
    dictionary are the column names in order, each name kept once at its
    first position; when the names are distinct the dictionary is exactly
    the columns paired with the converted cells. *)
Theorem run_sql_query_rows {Store : Type} (be : Backend string Store)
    (DB : ConnParams) (query : string) (s : state string Store)
    (r : Executed Store) (cols : list Column) (rows : list (list PyValue)) :
  be_connect be DB (committed s) = None ->
  be_execute be query (committed s) = inr r ->
  description r = Some cols ->
  cols <> [] ->
  fetch r = inr rows ->
  Forall (fun row => length row = length cols) rows ->
  exists result,
    (AdkConfig.run_sql_query be DB query s).1
      = Returned (envelope_results result)
    /\ length result = length rows
    /\ (rowcount r = Z.of_nat (length rows) ->
        Z.of_nat (length result) = rowcount r)
    /\ forall i row,
         rows !! i = Some row ->
         exists d,
           result !! i = Some d
           /\ d = AdkConfig.convert_row (col_name <$> cols) row
           /\ dict_keys d = first_occurrences (col_name <$> cols)
           /\ (NoDup (col_name <$> cols) ->
               dict_keys d = col_name <$> cols
               /\ d = zip (col_name <$> cols)
                          (AdkConfig.convert_value <$> row)).
Proof.
  intros Hc He Hd Hne Hf Hlen.
  destruct (run_sql_query_select be DB query s r cols rows Hc He Hd Hne Hf)
    as [Hadk _].
  eexists. split; [exact Hadk|]. split; [apply length_fmap|].
  split; [rewrite length_fmap; congruence|].
  intros i row Hrow.
  assert (length row = length (col_name <$> cols)) as Hl.
  { rewrite length_fmap. rewrite Forall_forall in Hlen.
    apply Hlen. apply list_elem_of_lookup. eauto. }
  eexists. split; [rewrite list_lookup_fmap, Hrow; reflexivity|].
  split; [reflexivity|].
  split; [apply convert_row_keys, Hl|].
  intros Hnd. split.
  - rewrite convert_row_keys by assumption.
    apply first_occurrences_NoDup, Hnd.
  - apply convert_row_NoDup; assumption.
Qed.

Lemma run_sql_query_rows_witness :
  exists result,
    (AdkConfig.run_sql_query staff_store local_params select_asha
       (boot ["Asha"])).1
    = Returned (envelope_results result)
    /\ length result = 1%nat.
Proof.
  destruct (run_sql_query_rows staff_store local_params select_asha
              (boot ["Asha"])
              {| description := Some [ {| col_name := "name"; type_code := 25 |} ];
                 rowcount := 1;
                 fetch := inr [[PyStr "Asha"]];
                 after := ["Asha"] |}
              [ {| col_name := "name"; type_code := 25 |} ]
              [[PyStr "Asha"]])
    as (result & Hout & Hlen & _).
  - reflexivity.
  - reflexivity.
  - reflexivity.
  - discriminate.
  - reflexivity.
  - repeat constructor.
  - exists result. split; [exact Hout|exact Hlen].
Defined.

(** C3, as the spec words it: with two columns of the same name the keys
    of a result dictionary are not the statement's column list. *)
Lemma run_sql_query_rows_duplicate_names :
  exists d,
    (AdkConfig.run_sql_query staff_store local_params select_join
       (boot ["Asha"])).1
    = Returned (envelope_results [d])
    /\ (col_name <$> [ {| col_name := "id"; type_code := 23 |};
                       {| col_name := "id"; type_code := 23 |};
                       {| col_name := "experience_years"; type_code := 1700 |} ])
       = ["id"; "id"; "experience_years"]
    /\ dict_keys d = ["id"; "experience_years"]
    /\ dict_keys d <> ["id"; "id"; "experience_years"].
Proof.
  eexists. split; [vm_compute; reflexivity|].
  split; [reflexivity|]. split; [reflexivity|]. discriminate.
Qed.



(** C7.  In both copies, for a statement with a non-empty description
    whose rows are fetched: each result dictionary has one entry per
    distinct column name; under a name it holds the converted cell of the
    last column of that name; and it has fewer keys than the statement
    has columns as soon as a name is repeated. *)
Theorem run_sql_query_duplicate_columns {Store : Type}
    (be : Backend string Store) (DB : ConnParams) (query : string)
    (s : state string Store) (r : Executed Store) (cols : list Column)
    (rows : list (list PyValue)) :
  be_connect be DB (committed s) = None ->
  be_execute be query (committed s) = inr r ->
  description r = Some cols ->
  cols <> [] ->
  fetch r = inr rows ->
  Forall (fun row => length row = length cols) rows ->
  exists result,
    (AdkConfig.run_sql_query be DB query s).1
      = Returned (envelope_results result)
    /\ (Agent.run_sql_query be (Db.get_connection be DB) query s).1
      = Returned (envelope_results result)
    /\ Forall2
         (fun row d =>
            NoDup (dict_keys d)
            /\ (forall name, name ∈ dict_keys d <-> name ∈ col_name <$> cols)
            /\ (forall j name cell,
                  (col_name <$> cols) !! j = Some name ->
                  row !! j = Some cell ->
                  (forall j', (j < j')%nat ->
                              (col_name <$> cols) !! j' <> Some name) ->
                  dict_get name d = Some (AdkConfig.convert_value cell))
            /\ (length (dict_keys d) <= length cols)%nat
            /\ (~ NoDup (col_name <$> cols) ->
                (length (dict_keys d) < length cols)%nat))
         rows result.
Proof.
  intros Hc He Hd Hne Hf Hlen.
  destruct (run_sql_query_select be DB query s r cols rows Hc He Hd Hne Hf)
    as [Hadk Hagent].
  eexists. split; [exact Hadk|]. split; [exact Hagent|].
  apply Forall2_fmap_r, Forall_Forall2_diag.
  eapply Forall_impl; [exact Hlen|]. cbn. intros row Hrow.
  assert (length row = length (col_name <$> cols)) as Hl
    by (rewrite length_fmap; exact Hrow).
  rewrite (convert_row_keys _ _ Hl).
  split; [apply NoDup_first_occurrences|].
  split; [intros name; apply elem_of_first_occurrences|].
  split; [intros j name cell; apply convert_row_last|].
  rewrite <- (length_fmap col_name cols).
  split; [apply length_first_occurrences|apply length_first_occurrences_dup].
Qed.

Lemma run_sql_query_duplicate_columns_witness :
  exists result,
    (AdkConfig.run_sql_query staff_store local_params select_join
       (boot ["Asha"])).1
    = Returned (envelope_results result)
    /\ (Agent.run_sql_query staff_store (Db.get_connection staff_store local_params) select_join
          (boot ["Asha"])).1
    = Returned (envelope_results result)
    /\ length result = 1%nat.
Proof.
  destruct (run_sql_query_duplicate_columns staff_store local_params
              select_join (boot ["Asha"])
              {| description :=
                   Some [ {| col_name := "id"; type_code := 23 |};
                          {| col_name := "id"; type_code := 23 |};
                          {| col_name := "experience_years";
                             type_code := 1700 |} ];
                 rowcount := 1;
                 fetch := inr [[PyInt 1; PyInt 7;
                                PyDecimal (DecFinite false 25 (-1))]];
                 after := ["Asha"] |}
              [ {| col_name := "id"; type_code := 23 |};
                {| col_name := "id"; type_code := 23 |};
                {| col_name := "experience_years"; type_code := 1700 |} ]
              [[PyInt 1; PyInt 7; PyDecimal (DecFinite false 25 (-1))]])
    as (result & Hadk & Hagent & Hall).
  - reflexivity.
  - reflexivity.
  - reflexivity.
  - discriminate.
  - reflexivity.
  - repeat constructor.
  - exists result. split; [exact Hadk|]. split; [exact Hagent|].
    apply Forall2_length in Hall. symmetry. exact Hall.
Defined.

(** The values the example of C7 ends with: the second [id] wins. *)
Example run_sql_query_join_example :
  (AdkConfig.run_sql_query staff_store local_params select_join
     (boot ["Asha"])).1
  = Returned
      (envelope_results
         [[("id", PyInt 7);
           ("experience_years",
            PyFloat (S754_finite false 5629499534213120 (-51)))]]).
Proof. vm_compute. reflexivity. Qed.

(** ** The bootstrap against a PostgreSQL catalog *)

Lemma exec_create_employees (catalog : gmap string TableDef) :
  exec_script DbOperations.create_employees catalog
  = inr match catalog !! "employees" with
        | Some _ => catalog
        | None => <["employees" := DbOperations.employees_table]> catalog
        end.
Proof.
  unfold DbOperations.create_employees, exec_script, exec_statement.
  destruct (catalog !! "employees"); reflexivity.
Qed.

Lemma exec_create_employee_skills (catalog : gmap string TableDef) :
  exec_script DbOperations.create_employee_skills catalog
  = match catalog !! "employee_skills" with
    | Some _ => inr catalog
    | None =>
        if match catalog !! "employees" with
           | Some def => is_key_column "id" def
           | None => false
           end
        then inr (<["employee_skills" := DbOperations.employee_skills_table]>
                    catalog)
        else inl (DatabaseError "foreign key of employee_skills has no target")
    end.
Proof.
  unfold DbOperations.create_employee_skills, exec_script, exec_statement.
  destruct (catalog !! "employee_skills"); [reflexivity|].
  unfold references_resolve, DbOperations.employee_skills_table.
  cbn [td_columns forallb cd_constraints reference_resolves andb].
  rewrite lookup_insert_ne by discriminate.
  destruct (catalog !! "employees") as [def|]; [|reflexivity].
  destruct (is_key_column "id" def); reflexivity.
Qed.

Lemma create_tables_committed (reach : ConnParams -> option exn)
    (DB : ConnParams) (s : state Script (gmap string TableDef)) :
  committed (DbOperations.create_tables (postgres reach) DB s).2
  = create_tables_catalog reach DB (committed s).
Proof.
  destruct DB. unfold create_tables_catalog.
  unfold_py. cbn -[String.append exec_script].
  destruct (reach _); cbn -[String.append exec_script]; [reflexivity|].
  destruct (exec_script DbOperations.create_employees (committed s));
    cbn -[String.append exec_script]; [reflexivity|].
  destruct (exec_script DbOperations.create_employee_skills _);
    cbn -[String.append exec_script]; reflexivity.
Qed.

(** X7.  On a store that can be reached and has neither table,
    [create_tables] creates both, as declared in
    [core/db_operations.py], and leaves the other tables alone. *)
Lemma create_tables_creates_absent (reach : ConnParams -> option exn)
    (DB : ConnParams) (s : state Script (gmap string TableDef)) :
  reach DB = None ->
  committed s !! "employees" = None ->
  committed s !! "employee_skills" = None ->
  committed (DbOperations.create_tables (postgres reach) DB s).2
  = <["employee_skills" := DbOperations.employee_skills_table]>
      (<["employees" := DbOperations.employees_table]> (committed s)).
Proof.
  intros Hr He Hs. rewrite create_tables_committed.
  unfold create_tables_catalog.
  rewrite Hr, exec_create_employees, He, exec_create_employee_skills.
  rewrite lookup_insert_ne by discriminate. rewrite Hs.
  rewrite lookup_insert_eq. reflexivity.
Qed.

(** X8.  On a store that has both tables, whatever their definitions,
    [create_tables] changes nothing. *)
Lemma create_tables_keeps_existing (reach : ConnParams -> option exn)
    (DB : ConnParams) (s : state Script (gmap string TableDef))
    (employees employee_skills : TableDef) :
  committed s !! "employees" = Some employees ->
  committed s !! "employee_skills" = Some employee_skills ->
  committed (DbOperations.create_tables (postgres reach) DB s).2
  = committed s.
Proof.
  intros He Hs. rewrite create_tables_committed.
  unfold create_tables_catalog.
  rewrite exec_create_employees, He, exec_create_employee_skills, Hs.
  destruct (reach DB); reflexivity.
Qed.

Lemma create_tables_catalog_idempotent (reach : ConnParams -> option exn)
    (DB : ConnParams) (catalog : gmap string TableDef) :
  create_tables_catalog reach DB (create_tables_catalog reach DB catalog)
  = create_tables_catalog reach DB catalog.
Proof.
  unfold create_tables_catalog.
  destruct (reach DB) eqn:Hr; [reflexivity|].
  rewrite (exec_create_employees catalog).
  set (catalog1 := match catalog !! "employees" with
                   | Some _ => catalog
                   | None => <["employees" := DbOperations.employees_table]> catalog
                   end).
  assert (is_Some (catalog1 !! "employees")) as [def Hdef].
  { unfold catalog1. destruct (catalog !! "employees") eqn:E.
    - rewrite E. eauto.
    - rewrite lookup_insert_eq. eauto. }
  rewrite (exec_create_employee_skills catalog1).
  destruct (catalog1 !! "employee_skills") as [skills|] eqn:Hs.
  - (* both tables are there after the first statement *)
    rewrite exec_create_employees, Hdef, exec_create_employee_skills, Hs.
    reflexivity.
  - rewrite Hdef. destruct (is_key_column "id" def) eqn:Hkey.
    + rewrite exec_create_employees.
      rewrite lookup_insert_ne by discriminate. rewrite Hdef.
      rewrite exec_create_employee_skills, lookup_insert_eq. reflexivity.
    + (* the first run failed and left the catalog as it was *)
      rewrite exec_create_employees. fold catalog1.
      rewrite exec_create_employee_skills, Hs, Hdef, Hkey. reflexivity.
Qed.

(** X6.  Running [create_tables] again leaves the store as the first run
    left it, whatever the store held and whether or not it can be
    reached. *)
Lemma create_tables_idempotent (reach : ConnParams -> option exn)
    (DB : ConnParams) (s : state Script (gmap string TableDef)) :
  let once := (DbOperations.create_tables (postgres reach) DB s).2 in
  let twice := (DbOperations.create_tables (postgres reach) DB once).2 in
  committed twice = committed once.
Proof.
  cbn zeta. rewrite !create_tables_committed.
  apply create_tables_catalog_idempotent.
Qed.

(** C8.  The older script [create_user_table.py], run on an empty store:
    the tables it creates have no [UNIQUE] on [name] and no
    [UNIQUE (employee_id, tech)], unlike those of [create_tables]; and as
    its second statement has no [IF NOT EXISTS], a second run fails
    inside the script (the store stays as it was). *)
Theorem create_user_table_schema :
  let first :=
    CreateUserTable.create_user_table (postgres reachable) local_params
      (boot ∅) in
  let second :=
    CreateUserTable.create_user_table (postgres reachable) local_params
      first.2 in
  committed first.2 !! "employees" = Some CreateUserTable.employees_table
  /\ committed first.2 !! "employee_skills"
     = Some CreateUserTable.employee_skills_table
  /\ CreateUserTable.employees_table <> DbOperations.employees_table
  /\ CreateUserTable.employee_skills_table
     <> DbOperations.employee_skills_table
  /\ EvPrint "An error occurred: relation employee_skills already exists"
     ∈ new_events first.2 second.2
  /\ committed second.2 = committed first.2.
Proof.
  cbn zeta. split; [vm_compute; reflexivity|].
  split; [vm_compute; reflexivity|].
  split; [discriminate|]. split; [discriminate|].
  split.
  - vm_compute. repeat first [apply list_elem_of_here | apply list_elem_of_further].
  - vm_compute. reflexivity.
Qed.

(** C9, as the code has it.  [create_tables] returns normally whatever
    the driver does.  When a step fails (the connection, one of the two
    statements or the commit) the exception is caught inside the
    function: its text is printed and logged, nothing becomes durable,
    and the caller is not told.  [create_user_table] likewise returns
    normally once it has a connection. *)
Theorem create_tables_reports_and_returns {Store : Type}
    (be : Backend Script Store) (DB : ConnParams) (s : state Script Store) :
  let run := DbOperations.create_tables be DB s in
  run.1 = Returned tt
  /\ (forall e,
        create_tables_failure be DB (committed s) = Some e ->
        EvPrint ("--- Database Setup: An error occurred during table creation: "
                 +:+ str_exn e +:+ " ---") ∈ new_events s run.2
        /\ EvLogException "Table creation failed:" e ∈ new_events s run.2
        /\ filter is_close (new_events s run.2)
           = match be_connect be DB (committed s) with
             | Some _ => []
             | None => [EvClose (opened s)]
             end
        /\ committed run.2 = committed s)
  /\ (be_connect be DB (committed s) = None ->
      (CreateUserTable.create_user_table be DB s).1 = Returned tt).
Proof.
  cbn zeta. destruct DB. unfold create_tables_failure.
  split; [|split].
  - run_py. all: reflexivity.
  - intros e0. run_py. all: intros Hfail; simplify_eq.
    all: split; [|split; [|split; [|reflexivity]]].
    all: trace_py.
    all: try reflexivity.
    all: repeat first [apply list_elem_of_here | apply list_elem_of_further].
  - intros Hc. run_py. all: simplify_eq. all: reflexivity.
Qed.

(** C9, as the spec words it: with the store unreachable the bootstrap
    fails at its first step and still returns normally. *)
Lemma create_tables_returns_when_unreachable :
  create_tables_failure (postgres unreachable) local_params ∅
    = Some (DatabaseError "could not connect to server")
  /\ (DbOperations.create_tables (postgres unreachable) local_params
        (boot ∅)).1
     = Returned tt.
Proof. split; reflexivity. Qed.

(** C10, as the code has it.  Importing [core/db_operations.py] binds the
    five constants to whatever [os.getenv] gives, [None] for a variable
    that is set neither in the environment nor in the [.env] file; it
    checks nothing, raises nothing and does not connect.
    [get_connection] calls [psycopg2.connect] once with these constants:
    it returns the connection, or raises the very exception the driver
    raised, without a second attempt. *)
Theorem credentials_read_unchecked {Q Store : Type} (be : Backend Q Store)
    (dotenv environ : gmap string string) (DB : ConnParams)
    (s : state Q Store) :
  let imported := DbOperations.import_module dotenv environ s in
  let connected := DbOperations.get_connection be DB s in
  imported.1 = Returned (DbOperations.module_constants dotenv environ)
  /\ filter is_connect (new_events s imported.2) = []
  /\ (forall name field,
        (name, field) ∈ credentials ->
        environ !! name = None ->
        dotenv !! name = None ->
        field (DbOperations.module_constants dotenv environ) = None)
  /\ filter is_connect (new_events s connected.2) = [EvConnect DB]
  /\ connected.1
     = match be_connect be DB (committed s) with
       | Some e => Raised e
       | None => Returned (opened s)
       end.
Proof.
  cbn zeta. split; [reflexivity|]. split.
  { unfold_py. cbn -[String.append]. trace_py. reflexivity. }
  split.
  { intros name field Hin He Hd.
    assert (load_dotenv dotenv environ !! name = None) as Hnone.
    { unfold load_dotenv. apply lookup_union_None. split; assumption. }
    unfold credentials in Hin.
    repeat (apply elem_of_cons in Hin as [Hin|Hin];
            [inversion Hin; subst; exact Hnone|]).
    inversion Hin. }
  destruct DB. split.
  - run_py. all: trace_py; reflexivity.
  - run_py. all: reflexivity.
Qed.

(** C10, as the spec words it: with no credentials in the environment
    the module is imported without error, and the failure comes later,
    from the connection attempt. *)
Lemma missing_credentials_surface_on_connect :
  (DbOperations.import_module ∅ ∅ (boot (Q := string) (Store := list string) [])).1
    = Returned no_params
  /\ (DbOperations.get_connection staff_store no_params (boot [])).1
     = Raised (DatabaseError "could not connect to server").
Proof. split; reflexivity. Qed.

(** ** Further properties of the gateway *)

(** X2.  A gateway call makes one connection attempt, with the module's
    parameters, whether or not it succeeds; a connection that is obtained
    is a new one. *)
Theorem run_sql_query_connects_once {Store : Type}
    (be : Backend string Store) (DB : ConnParams) (query : string)
    (s : state string Store) :
  let s' := (AdkConfig.run_sql_query be DB query s).2 in
  filter is_connect (new_events s s') = [EvConnect DB]
  /\ opened s'
     = match be_connect be DB (committed s) with
       | Some _ => opened s
       | None => S (opened s)
       end.
Proof.
  cbn zeta. destruct DB. run_py.
  all: split; [trace_py; reflexivity|reflexivity].
Qed.

(** X3.  Once the connection is obtained, closing it is the last thing
    the gateway does with the driver: the cursor was closed before, once,
    and only the final print follows. *)
Theorem run_sql_query_close_is_last {Store : Type}
    (be : Backend string Store) (DB : ConnParams) (query : string)
    (s : state string Store) :
  be_connect be DB (committed s) = None ->
  exists before,
    new_events s (AdkConfig.run_sql_query be DB query s).2
    = before
      ++ [EvClose (opened s);
          EvPrint "--- SQL Query Execution: Database connection closed ---"]
    /\ filter is_close before = []
    /\ filter is_cursor_close before = [EvCursorClose (opened s)].
Proof.
  intros Hc. destruct DB. run_py. all: try congruence.
  all: trace_py.
  all: match goal with
       | |- exists before, ?l = _ /\ _ =>
           exists (take (length l - 2) l)
       end.
  all: split; [reflexivity|split; reflexivity].
Qed.

Lemma run_sql_query_close_is_last_witness :
  exists before,
    new_events (boot ["Asha"])
      (AdkConfig.run_sql_query staff_store local_params select_asha
         (boot ["Asha"])).2
    = before
      ++ [EvClose 0%nat;
          EvPrint "--- SQL Query Execution: Database connection closed ---"]
    /\ filter is_close before = []
    /\ filter is_cursor_close before = [EvCursorClose 0%nat].
Proof.
  apply (run_sql_query_close_is_last staff_store local_params select_asha
           (boot ["Asha"])).
  reflexivity.
Defined.

(** X4.  With a connection at hand the copy in [agent.py] does what the
    copy in [core/adk_config.py] does: the same result, the same calls to
    the driver in the same order, the same durable store. *)
Theorem agent_run_sql_query_agrees {Store : Type}
    (be : Backend string Store) (DB : ConnParams) (query : string)
    (s : state string Store) :
  be_connect be DB (committed s) = None ->
  let adk := AdkConfig.run_sql_query be DB query s in
  let agent := Agent.run_sql_query be (Db.get_connection be DB) query s in
  agent.1 = adk.1
  /\ filter is_driver_call (new_events s agent.2)
     = filter is_driver_call (new_events s adk.2)
  /\ committed agent.2 = committed adk.2.
Proof.
  intros Hc. cbn zeta. destruct DB. run_py. all: try congruence.
  all: split; [reflexivity|split; [|reflexivity]].
  all: do 2 trace_py; reflexivity.
Qed.

Lemma agent_run_sql_query_agrees_witness :
  (Agent.run_sql_query staff_store (Db.get_connection staff_store local_params)
     insert_asha (boot [])).1
  = (AdkConfig.run_sql_query staff_store local_params insert_asha (boot [])).1.
Proof.
  destruct (agent_run_sql_query_agrees staff_store local_params insert_asha
              (boot []) eq_refl) as [H _].
  exact H.
Defined.

(** X5.  [convert_row] pairs columns and cells as far as both go: the
    keys are the names of the first columns, as many as the row has
    cells, and cells beyond the last column are dropped. *)
Theorem convert_row_truncates (columns : list string) (row : list PyValue) :
  dict_keys (AdkConfig.convert_row columns row)
  = first_occurrences (take (length row) columns)
  /\ AdkConfig.convert_row columns row
     = AdkConfig.convert_row (take (length row) columns)
         (take (length columns) row).
Proof.
  unfold AdkConfig.convert_row. rewrite dict_keys_of_items.
  rewrite !convert_row_items. split.
  - f_equal. revert row. induction columns as [|c columns IH];
      intros [|v row]; cbn; try reflexivity.
    f_equal. apply IH.
  - f_equal. revert row. induction columns as [|c columns IH];
      intros [|v row]; cbn; try reflexivity.
    f_equal. apply IH.
Qed.

(** ** Further properties of the bootstrap *)

Lemma create_tables_creates_absent_witness :
  committed
    (DbOperations.create_tables (postgres reachable) local_params (boot ∅)).2
  !! "employee_skills"
  = Some DbOperations.employee_skills_table.
Proof.
  rewrite (create_tables_creates_absent reachable local_params (boot ∅)).
  - vm_compute. reflexivity.
  - reflexivity.
  - vm_compute. reflexivity.
  - vm_compute. reflexivity.
Defined.

Lemma create_tables_keeps_existing_witness :
  committed
    (DbOperations.create_tables (postgres reachable) local_params
       (boot both_tables)).2
  = both_tables.
Proof.
  apply (create_tables_keeps_existing reachable local_params
           (boot both_tables) DbOperations.employees_table
           DbOperations.employee_skills_table).
  - vm_compute. reflexivity.
  - vm_compute. reflexivity.
Defined.

(** X9.  [create_tables] commits once, after both statements: the store
    it leaves either is the store it found, or has both tables.  It never
    leaves [employees] newly created without [employee_skills]. *)
Theorem create_tables_all_or_nothing (reach : ConnParams -> option exn)
    (DB : ConnParams) (s : state Script (gmap string TableDef)) :
  let after := committed (DbOperations.create_tables (postgres reach) DB s).2 in
  after = committed s
  \/ (is_Some (after !! "employees")
      /\ is_Some (after !! "employee_skills")
      /\ forall name,
           name <> "employees" -> name <> "employee_skills" ->
           after !! name = committed s !! name).
Proof.
  cbn zeta. rewrite create_tables_committed. unfold create_tables_catalog.
  destruct (reach DB); [left; reflexivity|].
  rewrite exec_create_employees.
  set (catalog1 := match committed s !! "employees" with
                   | Some _ => committed s
                   | None => <["employees" := DbOperations.employees_table]>
                               (committed s)
                   end).
  assert (is_Some (catalog1 !! "employees")) as Hemp.
  { unfold catalog1. destruct (committed s !! "employees") eqn:E.
    - rewrite E. eauto.
    - rewrite lookup_insert_eq. eauto. }
  assert (forall name, name <> "employees" ->
                       catalog1 !! name = committed s !! name) as Hother.
  { intros name Hne. unfold catalog1.
    destruct (committed s !! "employees"); [reflexivity|].
    apply lookup_insert_ne. congruence. }
  rewrite exec_create_employee_skills.
  destruct (catalog1 !! "employee_skills") as [skills|] eqn:Hs.
  - right. split; [exact Hemp|]. split; [rewrite Hs; eauto|].
    intros name Hne _. apply Hother, Hne.
  - destruct Hemp as [def Hdef]. rewrite Hdef.
    destruct (is_key_column "id" def); [|left; reflexivity].
    right. split.
    + rewrite lookup_insert_ne by discriminate. rewrite Hdef. eauto.
    + split; [rewrite lookup_insert_eq; eauto|].
      intros name Hne1 Hne2. rewrite lookup_insert_ne by congruence.
      apply Hother, Hne1.
Qed.

(** X10.  Whatever the driver does, once [create_tables] has its
    connection it closes the cursor once and then the connection once,
    and it calls [commit] at most once, only when both statements ran. *)
Theorem create_tables_releases {Store : Type} (be : Backend Script Store)
    (DB : ConnParams) (s : state Script Store) :
  be_connect be DB (committed s) = None ->
  let evs := new_events s (DbOperations.create_tables be DB s).2 in
  exists before,
    evs = before
          ++ [EvCursorClose (opened s); EvClose (opened s);
              EvPrint "--- Database Setup: Database connection closed after table creation. ---"]
    /\ filter is_close before = []
    /\ filter is_cursor_close before = []
    /\ filter is_commit before
       = match be_execute be DbOperations.create_employees (committed s) with
         | inl _ => []
         | inr r1 =>
             match be_execute be DbOperations.create_employee_skills
                     (after r1) with
             | inl _ => []
             | inr _ => [EvCommit (opened s)]
             end
         end.
Proof.
  intros Hc. cbn zeta. destruct DB. run_py. all: try congruence.
  all: simplify_eq.
  all: trace_py.
  all: match goal with
       | |- exists before, ?l = _ /\ _ =>
           exists (take (length l - 3) l)
       end.
  all: split; [reflexivity|split; [reflexivity|split; reflexivity]].
Qed.

Lemma create_tables_releases_witness :
  exists before,
    new_events (boot ∅)
      (DbOperations.create_tables (postgres reachable) local_params (boot ∅)).2
    = before
      ++ [EvCursorClose 0%nat; EvClose 0%nat;
          EvPrint "--- Database Setup: Database connection closed after table creation. ---"]
    /\ filter is_close before = []
    /\ filter is_cursor_close before = []
    /\ filter is_commit before = [EvCommit 0%nat].
Proof.
  destruct (create_tables_releases (postgres reachable) local_params (boot ∅))
    as (before & Hevs & Hclose & Hcursor & Hcommit).
  - reflexivity.
  - exists before. split; [exact Hevs|]. split; [exact Hclose|].
    split; [exact Hcursor|]. rewrite Hcommit. vm_compute. reflexivity.
Defined.

(** X11.  [create_user_table] binds [conn] and [curr] only inside the
    [try]: when the connection cannot be had, the handler prints the
    error, and the [finally] block then fails on [curr], so the script
    ends with [UnboundLocalError]; nothing was opened and nothing is
    closed. *)
Theorem create_user_table_unbound_curr {Store : Type}
    (be : Backend Script Store) (DB : ConnParams) (s : state Script Store)
    (e : exn) :
  be_connect be DB (committed s) = Some e ->
  let run := CreateUserTable.create_user_table be DB s in
  run.1 = Raised (UnboundLocalError "curr")
  /\ new_events s run.2
     = [EvConnect DB; EvPrint ("An error occurred: " +:+ str_exn e)]
  /\ committed run.2 = committed s.
Proof.
  intros Hc. cbn zeta. destruct DB. unfold_py.
  cbn -[String.append drop]. rewrite Hc. cbn -[String.append drop].
  split; [reflexivity|]. split; [|reflexivity].
  trace_py. reflexivity.
Qed.

Lemma create_user_table_unbound_curr_witness :
  (CreateUserTable.create_user_table (postgres unreachable) local_params
     (boot ∅)).1
  = Raised (UnboundLocalError "curr").
Proof.
  destruct (create_user_table_unbound_curr (postgres unreachable) local_params
              (boot ∅) (DatabaseError "could not connect to server") eq_refl)
    as [H _].
  exact H.
Defined.

Lemma create_user_table_committed (reach : ConnParams -> option exn)
    (DB : ConnParams) (s : state Script (gmap string TableDef)) :
  committed (CreateUserTable.create_user_table (postgres reach) DB s).2
  = match reach DB with
    | Some _ => committed s
    | None =>
        match exec_script CreateUserTable.create_both (committed s) with
        | inl _ => committed s
        | inr catalog => catalog
        end
    end.
Proof.
  destruct DB. unfold_py. cbn -[String.append exec_script].
  destruct (reach _); cbn -[String.append exec_script]; [reflexivity|].
  destruct (exec_script CreateUserTable.create_both (committed s));
    cbn -[String.append exec_script]; reflexivity.
Qed.

(** X12.  [create_user_table] changes nothing on a store that already has
    [employee_skills]: its second statement has no [IF NOT EXISTS], so it
    fails and the transaction is dropped, together with an [employees]
    table that the first statement may just have created. *)
Theorem create_user_table_existing_skills (reach : ConnParams -> option exn)
    (DB : ConnParams) (s : state Script (gmap string TableDef))
    (skills : TableDef) :
  committed s !! "employee_skills" = Some skills ->
  committed (CreateUserTable.create_user_table (postgres reach) DB s).2
  = committed s.
Proof.
  intros Hs. rewrite create_user_table_committed.
  destruct (reach DB); [reflexivity|].
  unfold CreateUserTable.create_both, exec_script, exec_statement.
  destruct (committed s !! "employees") eqn:He.
  - rewrite Hs. reflexivity.
  - cbn. rewrite lookup_insert_ne by discriminate. rewrite Hs. reflexivity.
Qed.

Lemma create_user_table_existing_skills_witness :
  committed
    (CreateUserTable.create_user_table (postgres reachable) local_params
       (boot {[ "employee_skills" := CreateUserTable.employee_skills_table ]})).2
  !! "employees"
  = None.
Proof.
  rewrite (create_user_table_existing_skills reachable local_params
             (boot {[ "employee_skills" := CreateUserTable.employee_skills_table ]})
             CreateUserTable.employee_skills_table).
  - vm_compute. reflexivity.
  - vm_compute. reflexivity.
Defined.

Example scratch1 : (AdkUtils.run_adk_async (example_env false None) (example_runner false ["s1"]) "s1" "Add John" empty_world) = (Chat.Ok "", empty_world).
Proof. vm_compute.
Abort.

(** ** The chat layer *)

Lemma add_effects_nil (w : Chat.World) : add_effects w [] = w.
Proof. destruct w. unfold add_effects. cbn. rewrite app_nil_r. reflexivity. Qed.

Lemma add_effects_app (w : Chat.World) (efs1 efs2 : list Chat.effect) :
  add_effects (add_effects w efs1) efs2 = add_effects w (efs1 ++ efs2).
Proof. unfold add_effects. cbn. rewrite app_assoc. reflexivity. Qed.

Lemma new_effects_add (w : Chat.World) (efs : list Chat.effect) :
  new_effects w (add_effects w efs) = efs.
Proof. unfold new_effects, add_effects. cbn. apply drop_app_length. Qed.

Lemma only_emits_ret {A : Type} (a : A) : only_emits (Chat.ret a).
Proof.
  exists (Chat.Ok a), []. intros w. rewrite add_effects_nil. reflexivity.
Qed.

Lemma only_emits_raise {A : Type} (e : Chat.error) :
  only_emits (Chat.raise (A := A) e).
Proof.
  exists (Chat.Err e), []. intros w. rewrite add_effects_nil. reflexivity.
Qed.

Lemma only_emits_emit (ef : Chat.effect) : only_emits (Chat.emit ef).
Proof. exists (Chat.Ok tt), [ef]. intros w. reflexivity. Qed.

Lemma only_emits_bind {A B : Type} (m : Chat.C A) (k : A -> Chat.C B) :
  only_emits m -> (forall a, only_emits (k a)) -> only_emits (Chat.bind m k).
Proof.
  intros (r & efs & Hm) Hk. destruct r as [a|e].
  - destruct (Hk a) as (r' & efs' & Hka).
    exists r', (efs ++ efs'). intros w. unfold Chat.bind.
    rewrite Hm, Hka, add_effects_app. reflexivity.
  - exists (Chat.Err e), efs. intros w. unfold Chat.bind.
    rewrite Hm. reflexivity.
Qed.

Lemma only_emits_try_except {A : Type} (body : Chat.C A)
    (handler : Chat.error -> Chat.C A) :
  only_emits body -> (forall e, only_emits (handler e)) ->
  only_emits (Chat.try_except body handler).
Proof.
  intros (r & efs & Hm) Hh. destruct r as [a|e].
  - exists (Chat.Ok a), efs. intros w. unfold Chat.try_except.
    rewrite Hm. reflexivity.
  - destruct (Hh e) as (r' & efs' & Hhe).
    exists r', (efs ++ efs'). intros w. unfold Chat.try_except.
    rewrite Hm, Hhe, add_effects_app. reflexivity.
Qed.

Ltac only_emits_tac :=
  repeat first
    [ apply only_emits_ret
    | apply only_emits_raise
    | apply only_emits_emit
    | apply only_emits_bind; [|intros ?]
    | apply only_emits_try_except; [|intros ?] ].

Lemma only_emits_run_loop (stream : Chat.Stream) (d : option string) :
  only_emits (AdkUtils.run_loop stream d).
Proof.
  induction stream as [|event rest IH|e]; cbn [AdkUtils.run_loop].
  - apply only_emits_ret.
  - apply only_emits_bind; [apply only_emits_emit|intros _].
    destruct (Chat.is_final_response event); [|exact IH].
    unfold Chat.print.
    apply only_emits_bind; [apply only_emits_emit|intros _].
    destruct (Chat.content event) as [[r [[|[[t|]] ps]|]]|];
      only_emits_tac.
  - apply only_emits_raise.
Qed.

Lemma only_emits_run_adk_async (env : Chat.Env) (runner : Chat.Runner)
    (session_id user_message_text : string) :
  only_emits (AdkUtils.run_adk_async env runner session_id user_message_text).
Proof.
  unfold AdkUtils.run_adk_async, Chat.print, Chat.logging_exception.
  do 3 (apply only_emits_bind; [apply only_emits_emit|intros _]).
  destruct (Chat.get_session runner _ _ _) as [e|[session|]].
  - apply only_emits_raise.
  - do 2 (apply only_emits_bind; [apply only_emits_emit|intros _]).
    apply only_emits_bind.
    + apply only_emits_try_except.
      * apply only_emits_bind; [apply only_emits_emit|intros _].
        apply only_emits_run_loop.
      * intros e. only_emits_tac.
    + intros [t|]; only_emits_tac.
  - apply only_emits_ret.
Qed.

(** The answer of a turn does not depend on the world it starts in. *)
Lemma run_adk_async_result (env : Chat.Env) (runner : Chat.Runner)
    (session_id user_message_text : string) (w w' : Chat.World) :
  (AdkUtils.run_adk_async env runner session_id user_message_text w).1
  = (AdkUtils.run_adk_async env runner session_id user_message_text w').1.
Proof.
  destruct (only_emits_run_adk_async env runner session_id user_message_text)
    as (r & efs & H).
  rewrite !H. reflexivity.
Qed.

Lemma run_loop_yields (events : list Chat.Event) (rest : Chat.Stream)
    (d : option string) (w : Chat.World) :
  Forall (fun ev => Chat.is_final_response ev = false) events ->
  AdkUtils.run_loop (yields events rest) d w
  = AdkUtils.run_loop rest d (add_effects w (Chat.Pull <$> events)).
Proof.
  intros Hall. revert w. induction Hall as [|ev events Hev Hall IH]; intros w.
  - cbn. rewrite add_effects_nil. reflexivity.
  - cbn [yields foldr AdkUtils.run_loop]. unfold Chat.bind at 1. cbn [Chat.emit].
    rewrite Hev. fold (yields events rest). rewrite IH.
    unfold add_effects. cbn. rewrite <- app_assoc. reflexivity.
Qed.

Ltac unfold_chat :=
  unfold AdkUtils.run_adk_sync, AdkUtils.run_adk_async,
    Chat.try_except, Chat.bind, Chat.ret, Chat.raise,
    Chat.print, Chat.logging_exception, Chat.emit.

(** X13.  [run_adk_async] looks the session up before anything else.
    When the lookup raises, the exception leaves the function (the lookup
    is outside the [try]); when there is no such session, the function
    returns a fixed text; in both cases the agent is not run.  Otherwise
    the agent is started with the user's text.  [st.session_state] is not
    touched. *)
Theorem run_adk_async_session_lookup (env : Chat.Env) (runner : Chat.Runner)
    (session_id user_message_text : string) (w : Chat.World) :
  let run := AdkUtils.run_adk_async env runner session_id user_message_text w in
  match Chat.get_session runner AdkUtils.APP_NAME_FOR_ADK AdkUtils.USER_ID
          session_id with
  | inl e =>
      run.1 = Chat.Err e
      /\ filter runs_agent (new_effects w run.2) = []
  | inr None =>
      run.1 = Chat.Ok "Error: ADK session not found. Please refresh the page."
      /\ filter runs_agent (new_effects w run.2) = []
  | inr (Some _) =>
      head (filter runs_agent (new_effects w run.2))
      = Some (Chat.RunAsync AdkUtils.USER_ID session_id
                (AdkUtils.user_content user_message_text))
  end
  /\ Chat.session_state run.2 = Chat.session_state w.
Proof.
  cbn zeta.
  destruct (only_emits_run_adk_async env runner session_id user_message_text)
    as (r0 & efs0 & Hframe).
  split; [|rewrite Hframe; reflexivity].
  clear r0 efs0 Hframe.
  unfold_chat.
  destruct (Chat.get_session runner _ _ _) as [e|[session|]];
    cbn -[String.append substring].
  - split; [reflexivity|].
    unfold new_effects. cbn -[String.append substring].
    rewrite <- !app_assoc, drop_app_length. reflexivity.
  - destruct (only_emits_run_loop
                (Chat.run_async runner AdkUtils.USER_ID session_id
                   (AdkUtils.user_content user_message_text))
                (Some "[Agent encountered an issue and did not produce a final response]"))
      as (r & efs & Hloop).
    rewrite Hloop.
    destruct r as [[t|]|e]; cbn -[String.append substring].
    all: unfold new_effects; cbn -[String.append substring].
    all: rewrite <- !app_assoc, drop_app_length; reflexivity.
  - split; [reflexivity|].
    unfold new_effects. cbn -[String.append substring].
    rewrite <- !app_assoc, drop_app_length. reflexivity.
Qed.

(** X14.  The answer of a turn is decided by the first final response of
    the runner: the text of its first part is returned; if it has no
    content, no parts or no [text] attribute, a fixed text is returned;
    if the attribute is [None], cutting the answer for the console raises
    [TypeError].  Events before it are skipped, events after it are never
    asked for. *)
Theorem run_adk_async_first_final (env : Chat.Env) (runner : Chat.Runner)
    (session_id user_message_text : string) (w : Chat.World)
    (session : Chat.Session) (events : list Chat.Event) (final : Chat.Event)
    (rest : Chat.Stream) :
  Chat.get_session runner AdkUtils.APP_NAME_FOR_ADK AdkUtils.USER_ID session_id
    = inr (Some session) ->
  Chat.run_async runner AdkUtils.USER_ID session_id
    (AdkUtils.user_content user_message_text)
    = yields events (Chat.StreamYield final rest) ->
  Forall (fun ev => Chat.is_final_response ev = false) events ->
  Chat.is_final_response final = true ->
  let run := AdkUtils.run_adk_async env runner session_id user_message_text w in
  pulled (new_effects w run.2) = events ++ [final]
  /\ run.1
     = match Chat.content final with
       | Some {| Chat.parts := Some ({| Chat.text := Some (Some t) |} :: _) |} =>
           Chat.Ok t
       | Some {| Chat.parts := Some ({| Chat.text := Some None |} :: _) |} =>
           Chat.Err (Chat.TypeError "'NoneType' object is not subscriptable")
       | _ => Chat.Ok "[Agent finished but produced no text output]"
       end.
Proof.
  intros Hs Hstream Hskip Hfinal. cbn zeta. unfold_chat.
  rewrite Hs, Hstream. cbn -[String.append substring yields AdkUtils.run_loop].
  rewrite (run_loop_yields events _ _ _ Hskip).
  cbn -[String.append substring]. unfold_chat.
  cbn -[String.append substring]. rewrite Hfinal.
  assert (forall l : list Chat.Event,
            pulled (Chat.Pull <$> l) = l) as Hpulled.
  { induction l as [|x l IH]; cbn; [reflexivity|]. f_equal. exact IH. }
  destruct (Chat.content final) as [[r [[|[[[t|]|]] ps]|]]|];
    cbn -[String.append substring].
  all: split; [|reflexivity].
  all: unfold new_effects; cbn -[String.append substring].
  all: rewrite <- !app_assoc, drop_app_length.
  all: cbn -[String.append substring].
  all: unfold pulled; cbn -[String.append substring].
  all: rewrite omap_app; fold (pulled (Chat.Pull <$> events)).
  all: rewrite Hpulled; reflexivity.
Qed.

Lemma run_adk_async_first_final_witness :
  (AdkUtils.run_adk_async (example_env false None)
     (example_runner false ["s1"]) "s1" "Add John" empty_world).1
  = Chat.Ok "Added John."
  /\ pulled
       (new_effects empty_world
          (AdkUtils.run_adk_async (example_env false None)
             (example_runner false ["s1"]) "s1" "Add John" empty_world).2)
     = [thinking; answer_event "Added John."].
Proof.
  destruct (run_adk_async_first_final (example_env false None)
              (example_runner false ["s1"]) "s1" "Add John" empty_world
              {| Chat.state_repr := "{}" |} [thinking]
              (answer_event "Added John.")
              (Chat.StreamRaise (Chat.Exception "never reached")))
    as [Hpulled Hresult].
  - reflexivity.
  - reflexivity.
  - repeat constructor.
  - reflexivity.
  - split; [exact Hresult|exact Hpulled].
Defined.

(** X15.  A run of the agent that gives no final response never makes
    [run_adk_async] raise.  When the generator is exhausted, the text set
    before the loop is returned; when it raises, the exception is logged
    and the returned text is an apology that ends with the text of the
    exception. *)
Theorem run_adk_async_no_final (env : Chat.Env) (runner : Chat.Runner)
    (session_id user_message_text : string) (w : Chat.World)
    (session : Chat.Session) (events : list Chat.Event)
    (failure : option Chat.error) :
  Chat.get_session runner AdkUtils.APP_NAME_FOR_ADK AdkUtils.USER_ID session_id
    = inr (Some session) ->
  Chat.run_async runner AdkUtils.USER_ID session_id
    (AdkUtils.user_content user_message_text)
    = yields events match failure with
                    | Some e => Chat.StreamRaise e
                    | None => Chat.StreamEnd
                    end ->
  Forall (fun ev => Chat.is_final_response ev = false) events ->
  let run := AdkUtils.run_adk_async env runner session_id user_message_text w in
  pulled (new_effects w run.2) = events
  /\ match failure with
     | Some e =>
         run.1 = Chat.Ok ("Sorry, an error occurred while processing your request: "
                          +:+ Chat.str_error e)
         /\ Chat.LogException "ADK runner.run_async failed:" e
            ∈ new_effects w run.2
     | None =>
         run.1 = Chat.Ok "[Agent encountered an issue and did not produce a final response]"
     end.
Proof.
  intros Hs Hstream Hskip. cbn zeta. unfold_chat.
  rewrite Hs, Hstream. cbn -[String.append substring yields AdkUtils.run_loop].
  rewrite (run_loop_yields events _ _ _ Hskip).
  assert (forall l : list Chat.Event,
            pulled (Chat.Pull <$> l) = l) as Hpulled.
  { induction l as [|x l IH]; cbn; [reflexivity|]. f_equal. exact IH. }
  destruct failure as [e|]; cbn -[String.append substring].
  all: unfold_chat; cbn -[String.append substring].
  all: unfold new_effects; cbn -[String.append substring].
  all: rewrite <- !app_assoc, drop_app_length.
  all: cbn -[String.append substring].
  - split; [|split; [reflexivity|]].
    + unfold pulled. cbn -[String.append substring].
      rewrite omap_app. fold (pulled (Chat.Pull <$> events)).
      rewrite Hpulled. cbn. apply app_nil_r.
    + repeat first [apply list_elem_of_here | apply list_elem_of_further].
      rewrite elem_of_app. right.
      repeat first [apply list_elem_of_here | apply list_elem_of_further].
  - split; [|reflexivity].
    unfold pulled. cbn -[String.append substring].
    rewrite omap_app. fold (pulled (Chat.Pull <$> events)).
    rewrite Hpulled. cbn. apply app_nil_r.
Qed.

Lemma run_adk_async_no_final_witness :
  (AdkUtils.run_adk_async (example_env false None)
     {| Chat.get_session := fun _ _ _ =>
          inr (Some {| Chat.state_repr := "{}" |});
        Chat.run_async := fun _ _ _ =>
          yields [thinking] (Chat.StreamRaise (Chat.Exception "quota exceeded")) |}
     "s1" "Add John" empty_world).1
  = Chat.Ok "Sorry, an error occurred while processing your request: quota exceeded".
Proof.
  destruct (run_adk_async_no_final (example_env false None)
              {| Chat.get_session := fun _ _ _ =>
                   inr (Some {| Chat.state_repr := "{}" |});
                 Chat.run_async := fun _ _ _ =>
                   yields [thinking]
                     (Chat.StreamRaise (Chat.Exception "quota exceeded")) |}
              "s1" "Add John" empty_world
              {| Chat.state_repr := "{}" |} [thinking]
              (Some (Chat.Exception "quota exceeded")))
    as [_ [Hresult _]].
  - reflexivity.
  - reflexivity.
  - repeat constructor.
  - exact Hresult.
Defined.

(** ** The chat page *)

Lemma display_messages_shown (messages : list (PyDict string))
    (w : Chat.World) :
  Forall complete_message messages ->
  StreamlitUi.display_messages messages w
  = (Chat.Ok tt, add_effects w (shown messages)).
Proof.
  intros Hall. revert w.
  induction Hall as [|msg messages [[r Hr] [c Hc]] Hall IH]; intros w.
  - cbn. rewrite add_effects_nil. reflexivity.
  - cbn [StreamlitUi.display_messages]. unfold Chat.subscript.
    rewrite Hr, Hc. unfold Chat.bind, Chat.ret, Chat.emit. cbn.
    rewrite IH. unfold add_effects, shown. cbn. rewrite Hr, Hc. cbn.
    rewrite <- !app_assoc. reflexivity.
Qed.

Ltac unfold_ui :=
  unfold StreamlitUi.display_chat_interface, StreamlitUi.append_message,
    Chat.read_session_state, Chat.write_session_state,
    Chat.try_except, Chat.bind, Chat.ret, Chat.raise,
    Chat.print, Chat.logging_exception, Chat.emit.

(** What [display_chat_interface] returns and stores. *)
Lemma display_chat_interface_run (env : Chat.Env)
    (adk_runner : Chat.Runner) (current_session_id : string)
    (w : Chat.World) :
  Forall complete_message (history_of w) ->
  let run :=
    StreamlitUi.display_chat_interface env adk_runner current_session_id w in
  run.1 = Chat.Ok tt
  /\ Chat.chat_history_employee_assistant (Chat.session_state run.2)
     = Some (history_of w
             ++ match prompt_of env with
                | Some user_prompt =>
                    [ dict_of_items [("role", "user"); ("content", user_prompt)];
                      dict_of_items
                        [("role", "assistant");
                         ("content",
                          assistant_text env adk_runner current_session_id
                            user_prompt w)] ]
                | None => []
                end)
  /\ Chat.adk_session_id (Chat.session_state run.2)
     = Chat.adk_session_id (Chat.session_state w)
  /\ Forall complete_message (history_of run.2).
Proof.
  intros Hall. cbn zeta.
  destruct w as [efs0 [sid hist] cache]. unfold history_of in *. cbn in Hall.
  unfold assistant_text, prompt_of.
  unfold_ui. unfold AdkUtils.run_adk_sync.
  assert (Forall complete_message (default [] hist)) as Hall'
    by (destruct hist; auto).
  destruct hist as [h|];
    cbn -[AdkUtils.run_adk_async StreamlitUi.display_messages dict_of_items]
      in *.
  all: rewrite (display_messages_shown _ _ Hall').
  all: cbn -[AdkUtils.run_adk_async dict_of_items].
  all: destruct (Chat.chat_input env) as [[|c rest]|];
    cbn -[AdkUtils.run_adk_async dict_of_items].
  all: try (rewrite ?app_nil_r; repeat split; auto; fail).
  all: destruct (only_emits_run_adk_async env adk_runner current_session_id
                   (String c rest)) as (r & efs & Hframe).
  all: rewrite !Hframe; cbn -[dict_of_items].
  all: destruct r as [answer|e]; cbn -[dict_of_items].
  all: rewrite <- ?app_assoc.
  all: repeat split; auto.
  all: try (apply Forall_app; split; [assumption|]).
  all: repeat constructor; cbn; eauto.
Qed.

(** X16.  With a history of complete messages (or none yet),
    [display_chat_interface] never raises, whatever the turn does: an
    exception of the turn becomes the assistant's text.  Without a prompt
    the history stays as it is; with a prompt exactly two messages are
    appended, the user's text and then the assistant's, and nothing that
    was stored is changed.  The session id is left alone. *)
Theorem display_chat_interface_history (env : Chat.Env)
    (adk_runner : Chat.Runner) (current_session_id : string)
    (w : Chat.World) :
  Forall complete_message (history_of w) ->
  let run :=
    StreamlitUi.display_chat_interface env adk_runner current_session_id w in
  run.1 = Chat.Ok tt
  /\ Chat.chat_history_employee_assistant (Chat.session_state run.2)
     = Some (history_of w
             ++ match prompt_of env with
                | Some user_prompt =>
                    [ dict_of_items [("role", "user"); ("content", user_prompt)];
                      dict_of_items
                        [("role", "assistant");
                         ("content",
                          assistant_text env adk_runner current_session_id
                            user_prompt w)] ]
                | None => []
                end)
  /\ Chat.adk_session_id (Chat.session_state run.2)
     = Chat.adk_session_id (Chat.session_state w)
  /\ Forall complete_message (history_of run.2).
Proof. apply display_chat_interface_run. Qed.

Lemma display_chat_interface_history_witness :
  (StreamlitUi.display_chat_interface (example_env false (Some "Add John"))
     (example_runner false ["s1"]) "s1" empty_world).1
  = Chat.Ok tt
  /\ Chat.chat_history_employee_assistant
       (Chat.session_state
          (StreamlitUi.display_chat_interface
             (example_env false (Some "Add John"))
             (example_runner false ["s1"]) "s1" empty_world).2)
     = Some [ [("role", "user"); ("content", "Add John")];
              [("role", "assistant"); ("content", "Added John.")] ].
Proof.
  destruct (display_chat_interface_history
              (example_env false (Some "Add John"))
              (example_runner false ["s1"]) "s1" empty_world)
    as (Hok & Hhist & _).
  - constructor.
  - split; [exact Hok|]. rewrite Hhist. vm_compute. reflexivity.
Defined.

(** X17.  [display_chat_interface] first shows every stored message, in
    order, under its role; when the user has typed nothing (or nothing
    but the empty string) it does nothing else: no session lookup, no run
    of the agent. *)
Theorem display_chat_interface_shows_history (env : Chat.Env)
    (adk_runner : Chat.Runner) (current_session_id : string)
    (w : Chat.World) :
  Forall complete_message (history_of w) ->
  let run :=
    StreamlitUi.display_chat_interface env adk_runner current_session_id w in
  exists more,
    new_effects w run.2 = shown (history_of w) ++ more
    /\ match prompt_of env with
       | Some user_prompt =>
           take 2 more
           = [Chat.StChatMessage "user"; Chat.StMarkdown user_prompt false]
       | None => more = []
       end.
Proof.
  intros Hall. cbn zeta.
  destruct w as [efs0 [sid hist] cache]. unfold history_of in *. cbn in Hall.
  unfold prompt_of, new_effects.
  unfold_ui. unfold AdkUtils.run_adk_sync.
  assert (Forall complete_message (default [] hist)) as Hall'
    by (destruct hist; auto).
  destruct hist as [h|];
    cbn -[AdkUtils.run_adk_async StreamlitUi.display_messages dict_of_items
          drop] in *.
  all: rewrite (display_messages_shown _ _ Hall').
  all: cbn -[AdkUtils.run_adk_async dict_of_items drop].
  all: destruct (Chat.chat_input env) as [[|c rest]|];
    cbn -[AdkUtils.run_adk_async dict_of_items drop].
  all: try (exists []; rewrite drop_app_length;
            split; [rewrite ?app_nil_r; reflexivity|reflexivity]).
  all: destruct (only_emits_run_adk_async env adk_runner current_session_id
                   (String c rest)) as (r & efs & Hframe).
  all: rewrite !Hframe; cbn -[dict_of_items drop].
  all: destruct r as [answer|e]; cbn -[dict_of_items drop].
  all: rewrite <- !app_assoc, drop_app_length.
  all: eexists; split; [reflexivity|reflexivity].
Qed.

Lemma display_chat_interface_shows_history_witness :
  new_effects
    (add_effects
       {| Chat.effects := [];
          Chat.session_state :=
            {| Chat.adk_session_id := Some "s1";
               Chat.chat_history_employee_assistant :=
                 Some [ [("role", "user"); ("content", "Add John")];
                        [("role", "assistant"); ("content", "Added John.")] ] |};
          Chat.resource_cache := None |} [])
    (StreamlitUi.display_chat_interface (example_env false None)
       (example_runner false ["s1"]) "s1"
       (add_effects
          {| Chat.effects := [];
             Chat.session_state :=
               {| Chat.adk_session_id := Some "s1";
                  Chat.chat_history_employee_assistant :=
                    Some [ [("role", "user"); ("content", "Add John")];
                           [("role", "assistant"); ("content", "Added John.")] ] |};
             Chat.resource_cache := None |} [])).2
  = [ Chat.StChatMessage "user"; Chat.StMarkdown "Add John" true;
      Chat.StChatMessage "assistant"; Chat.StMarkdown "Added John." true ].
Proof.
  destruct (display_chat_interface_shows_history (example_env false None)
              (example_runner false ["s1"]) "s1"
              (add_effects
                 {| Chat.effects := [];
                    Chat.session_state :=
                      {| Chat.adk_session_id := Some "s1";
                         Chat.chat_history_employee_assistant :=
                           Some [ [("role", "user"); ("content", "Add John")];
                                  [("role", "assistant");
                                   ("content", "Added John.")] ] |};
                    Chat.resource_cache := None |} []))
    as (more & Hevs & Hmore).
  - repeat constructor; cbn; eauto.
  - rewrite Hevs. cbn in Hmore. rewrite Hmore. reflexivity.
Defined.

Lemma alternating_snoc (names : list string) :
  alternating names = true ->
  alternating (names ++ ["user"; "assistant"]) = true.
Proof.
  revert names. fix IH 1. intros [|u [|a rest]]; cbn.
  - reflexivity.
  - discriminate.
  - intros H. apply andb_prop in H as [H Hrest]. rewrite H. cbn.
    apply IH, Hrest.
Qed.

(** X18.  If in the stored history user and assistant take turns, the
    user first, they still do after [display_chat_interface], whether or
    not the turn succeeded. *)
Theorem display_chat_interface_alternates (env : Chat.Env)
    (adk_runner : Chat.Runner) (current_session_id : string)
    (w : Chat.World) :
  Forall complete_message (history_of w) ->
  alternating (roles (history_of w)) = true ->
  alternating
    (roles
       (history_of
          (StreamlitUi.display_chat_interface env adk_runner
             current_session_id w).2))
  = true.
Proof.
  intros Hall Halt.
  destruct (display_chat_interface_run env adk_runner current_session_id w
              Hall) as (_ & Hhist & _).
  unfold history_of at 1. rewrite Hhist. cbn [default id].
  unfold roles. rewrite omap_app. fold (roles (history_of w)).
  destruct (prompt_of env) as [user_prompt|].
  - apply alternating_snoc, Halt.
  - cbn. rewrite app_nil_r. exact Halt.
Qed.

Lemma display_chat_interface_alternates_witness :
  alternating
    (roles
       (history_of
          (StreamlitUi.display_chat_interface
             (example_env false (Some "Add John"))
             (example_runner false []) "s1" empty_world).2))
  = true.
Proof.
  apply (display_chat_interface_alternates
           (example_env false (Some "Add John"))
           (example_runner false []) "s1" empty_world).
  - constructor.
  - reflexivity.
Defined.

(** ** The runner and the session *)

Ltac unfold_init :=
  unfold AdkSession.initialize_adk, AdkSession.initialize_adk_body,
    AdkSession.create_session, AdkSession.new_session_service,
    Chat.read_session_state, Chat.write_session_state,
    Chat.try_except, Chat.bind, Chat.ret, Chat.raise,
    Chat.print, Chat.logging_exception, Chat.emit.

Ltac simpl_init :=
  cbn -[String.append pretty AdkSession.make_runner AdkSession.hex4
        insert lookup empty drop].

(** X19.  On a first visit (no session id in [st.session_state], nothing
    cached) [initialize_adk] makes up a session id from the clock and
    four random bytes, stores it in [st.session_state] and creates the
    session; the runner it returns finds that session, with an empty
    state.  The chat history is not touched. *)
Theorem initialize_adk_first_visit (env : Chat.Env) (w : Chat.World) :
  Chat.resource_cache w = None ->
  Chat.adk_session_id (Chat.session_state w) = None ->
  Chat.create_session_error env (fresh_session_id env) = None ->
  let run := AdkSession.initialize_adk env w in
  exists runner,
    run.1 = Chat.Ok (runner, fresh_session_id env)
    /\ Chat.adk_session_id (Chat.session_state run.2)
       = Some (fresh_session_id env)
    /\ Chat.chat_history_employee_assistant (Chat.session_state run.2)
       = Chat.chat_history_employee_assistant (Chat.session_state w)
    /\ Chat.get_session runner AdkUtils.APP_NAME_FOR_ADK AdkUtils.USER_ID
         (fresh_session_id env)
       = inr (Some {| Chat.state_repr := "{}" |})
    /\ Chat.resource_cache run.2 = Some (runner, fresh_session_id env).
Proof.
  intros Hcache Hid Hcreate. cbn zeta. unfold fresh_session_id in *.
  unfold_init. rewrite Hcache. simpl_init. rewrite Hid. simpl_init.
  rewrite Hcreate. simpl_init.
  eexists. split; [reflexivity|]. split; [reflexivity|].
  split; [reflexivity|]. split; [|reflexivity].
  unfold AdkSession.make_runner. cbn [Chat.get_session].
  rewrite lookup_insert_eq. reflexivity.
Qed.

Lemma initialize_adk_first_visit_witness :
  exists runner,
    (AdkSession.initialize_adk (example_env false None) empty_world).1
    = Chat.Ok (runner, "streamlit_adk_session_1700000000_0aff007b").
Proof.
  destruct (initialize_adk_first_visit (example_env false None) empty_world)
    as (runner & Hrun & _).
  - reflexivity.
  - reflexivity.
  - reflexivity.
  - exists runner. rewrite Hrun. reflexivity.
Defined.

(** X20.  When on a first visit the session cannot be created,
    [initialize_adk] raises, but the new id is already in
    [st.session_state] and nothing is cached.  The next run of the script
    therefore takes the other branch: it returns normally although the
    session still cannot be created, and with the runner it returns every
    turn ends with the text that the session was not found. *)
Theorem initialize_adk_failed_first_visit (env : Chat.Env) (w : Chat.World)
    (e : Chat.error) (user_message_text : string) (w' : Chat.World) :
  Chat.resource_cache w = None ->
  Chat.adk_session_id (Chat.session_state w) = None ->
  Chat.create_session_error env (fresh_session_id env) = Some e ->
  let first := AdkSession.initialize_adk env w in
  let second := AdkSession.initialize_adk env first.2 in
  first.1 = Chat.Err e
  /\ Chat.adk_session_id (Chat.session_state first.2)
     = Some (fresh_session_id env)
  /\ Chat.resource_cache first.2 = None
  /\ exists runner,
       second.1 = Chat.Ok (runner, fresh_session_id env)
       /\ (AdkUtils.run_adk_async env runner (fresh_session_id env)
             user_message_text w').1
          = Chat.Ok "Error: ADK session not found. Please refresh the page.".
Proof.
  intros Hcache Hid Hcreate. cbn zeta. unfold fresh_session_id in *.
  unfold_init. rewrite Hcache. simpl_init. rewrite Hid. simpl_init.
  rewrite Hcreate. simpl_init.
  split; [reflexivity|]. split; [reflexivity|]. split; [reflexivity|].
  rewrite lookup_empty. simpl_init. rewrite Hcreate. simpl_init.
  eexists. split; [reflexivity|].
  unfold_chat. unfold AdkSession.make_runner. cbn [Chat.get_session].
  rewrite lookup_empty. reflexivity.
Qed.

Lemma initialize_adk_failed_first_visit_witness :
  (AdkSession.initialize_adk (example_env true None) empty_world).1
  = Chat.Err (Chat.Exception "session service unavailable").
Proof.
  destruct (initialize_adk_failed_first_visit (example_env true None)
              empty_world (Chat.Exception "session service unavailable")
              "Add John" empty_world)
    as (Hfirst & _).
  - reflexivity.
  - reflexivity.
  - reflexivity.
  - exact Hfirst.
Defined.

(** X21.  When [st.session_state] already has a session id (and nothing
    is cached), [initialize_adk] never raises and returns that id.  The
    session service it has just built holds no session, so the session is
    always created anew, with an empty state; if that fails the failure
    is only printed and logged, and the runner is returned without the
    session.  [st.session_state] stays as it was. *)
Theorem initialize_adk_returning_visit (env : Chat.Env) (w : Chat.World)
    (session_id : string) :
  Chat.resource_cache w = None ->
  Chat.adk_session_id (Chat.session_state w) = Some session_id ->
  let run := AdkSession.initialize_adk env w in
  exists runner,
    run.1 = Chat.Ok (runner, session_id)
    /\ Chat.session_state run.2 = Chat.session_state w
    /\ Chat.CreateSession AdkUtils.APP_NAME_FOR_ADK AdkUtils.USER_ID session_id
       ∈ new_effects w run.2
    /\ Chat.get_session runner AdkUtils.APP_NAME_FOR_ADK AdkUtils.USER_ID
         session_id
       = inr match Chat.create_session_error env session_id with
             | Some _ => None
             | None => Some {| Chat.state_repr := "{}" |}
             end.
Proof.
  intros Hcache Hid. cbn zeta.
  unfold_init. rewrite Hcache. simpl_init. rewrite Hid. simpl_init.
  rewrite lookup_empty. simpl_init.
  destruct (Chat.create_session_error env session_id) as [e|]; simpl_init.
  all: eexists; split; [reflexivity|]; split; [reflexivity|]; split.
  all: try (unfold AdkSession.make_runner; cbn [Chat.get_session];
            rewrite ?lookup_insert_eq, ?lookup_empty; reflexivity).
  all: unfold new_effects; simpl_init.
  all: rewrite <- !app_assoc, drop_app_length.
  all: repeat first [apply list_elem_of_here | apply list_elem_of_further].
Qed.

Lemma initialize_adk_returning_visit_witness :
  exists runner,
    (AdkSession.initialize_adk (example_env true None)
       {| Chat.effects := [];
          Chat.session_state :=
            {| Chat.adk_session_id := Some "s1";
               Chat.chat_history_employee_assistant := None |};
          Chat.resource_cache := None |}).1
    = Chat.Ok (runner, "s1")
    /\ Chat.get_session runner AdkUtils.APP_NAME_FOR_ADK AdkUtils.USER_ID "s1"
       = inr None.
Proof.
  destruct (initialize_adk_returning_visit (example_env true None)
              {| Chat.effects := [];
                 Chat.session_state :=
                   {| Chat.adk_session_id := Some "s1";
                      Chat.chat_history_employee_assistant := None |};
                 Chat.resource_cache := None |} "s1")
    as (runner & Hrun & _ & _ & Hget).
  - reflexivity.
  - reflexivity.
  - exists runner. split; [exact Hrun|exact Hget].
Defined.

Lemma run_adk_async_starts_agent (env : Chat.Env) (runner : Chat.Runner)
    (session_id user_message_text : string) (w : Chat.World)
    (session : Chat.Session) :
  Chat.get_session runner AdkUtils.APP_NAME_FOR_ADK AdkUtils.USER_ID session_id
    = inr (Some session) ->
  head (filter runs_agent
          (new_effects w
             (AdkUtils.run_adk_async env runner session_id
                user_message_text w).2))
  = Some (Chat.RunAsync AdkUtils.USER_ID session_id
            (AdkUtils.user_content user_message_text)).
Proof.
  intros Hs. unfold_chat. rewrite Hs. cbn -[String.append substring].
  destruct (only_emits_run_loop
              (Chat.run_async runner AdkUtils.USER_ID session_id
                 (AdkUtils.user_content user_message_text))
              (Some "[Agent encountered an issue and did not produce a final response]"))
    as (r & efs & Hloop).
  rewrite Hloop.
  destruct r as [[t|]|e]; cbn -[String.append substring].
  all: unfold new_effects; cbn -[String.append substring].
  all: rewrite <- !app_assoc, drop_app_length; reflexivity.
Qed.

(** X22.  The runner and the session id that [initialize_adk] returns on
    a first visit fit together: a turn run with them finds its session
    and hands the user's text to the agent of the application. *)
Theorem initialize_adk_then_turn (env : Chat.Env) (w w' : Chat.World)
    (runner : Chat.Runner) (session_id user_message_text : string) :
  Chat.resource_cache w = None ->
  Chat.adk_session_id (Chat.session_state w) = None ->
  (AdkSession.initialize_adk env w).1 = Chat.Ok (runner, session_id) ->
  let turn :=
    AdkUtils.run_adk_async env runner session_id user_message_text w' in
  session_id = fresh_session_id env
  /\ Chat.run_async runner = Chat.agent env
  /\ head (filter runs_agent (new_effects w' turn.2))
     = Some (Chat.RunAsync AdkUtils.USER_ID session_id
               (AdkUtils.user_content user_message_text)).
Proof.
  intros Hcache Hid. unfold fresh_session_id.
  unfold_init. rewrite Hcache. simpl_init. rewrite Hid. simpl_init.
  destruct (Chat.create_session_error env _) as [e|]; simpl_init;
    intros Hinit; [discriminate|].
  inversion Hinit; subst. cbn zeta.
  split; [reflexivity|]. split; [reflexivity|].
  eapply run_adk_async_starts_agent.
  unfold AdkSession.make_runner. cbn [Chat.get_session].
  rewrite lookup_insert_eq. reflexivity.
Qed.

Lemma initialize_adk_then_turn_witness :
  head (filter runs_agent
          (new_effects empty_world
             (AdkUtils.run_adk_async (example_env false None)
                (AdkSession.make_runner (example_env false None)
                   (<[(AdkUtils.APP_NAME_FOR_ADK, AdkUtils.USER_ID,
                       "streamlit_adk_session_1700000000_0aff007b")
                      := {| Chat.state_repr := "{}" |}]>
                      AdkSession.new_session_service))
                "streamlit_adk_session_1700000000_0aff007b" "Add John"
                empty_world).2))
  = Some (Chat.RunAsync AdkUtils.USER_ID
            "streamlit_adk_session_1700000000_0aff007b"
            (AdkUtils.user_content "Add John")).
Proof.
  destruct (initialize_adk_then_turn (example_env false None) empty_world
              empty_world
              (AdkSession.make_runner (example_env false None)
                 (<[(AdkUtils.APP_NAME_FOR_ADK, AdkUtils.USER_ID,
                     "streamlit_adk_session_1700000000_0aff007b")
                    := {| Chat.state_repr := "{}" |}]>
                    AdkSession.new_session_service))
              "streamlit_adk_session_1700000000_0aff007b" "Add John")
    as (_ & _ & Hturn).
  - reflexivity.
  - reflexivity.
  - reflexivity.
  - exact Hturn.
Defined.
